(** * The autograd bridge of diff_gaussian_rasterization

    A shallow embedding of [diff_gaussian_rasterization/__init__.py]: the
    settings tuple, [cpu_deep_copy_tuple], the custom autograd function
    [_RasterizeGaussians] (forward and backward) and the public module
    [GaussianRasterizer], followed by the properties of the marshalling,
    of the debug snapshots and of the input validation.

    Conventions of the embedding.
    - A tensor is a Python object shared by reference: the model keeps a
      store of tensor contents and a [Tensor] is an index in that store.
      The native extension [_C] receives references and may overwrite or
      allocate contents; it is a parameter of the development.
    - A Python function that may raise, print, write a file or call [_C]
      is a computation [M A] over a [World]: tensor store, working
      directory, standard output, and the trace of native calls.
    - The exceptions of the model are the instances of [Exception], which
      is what [except Exception] catches.
    - The [@jaxtyped @typechecked] decorators check the annotated
      parameters, in the order of the signature, before the body runs, and
      raise a [TypeError] at the first one that does not fit. That a
      parameter is a tensor (or [None]) is rendered by its type; the dtype
      and the dimension string of each annotation are checked against the
      contents the tensor has in the store. *)

From Stdlib Require Import ZArith String Ascii.
From Stdlib Require Import Floats.SpecFloat.
From stdpp Require Import gmap strings list.

(** ** Values *)

Module Torch.

Inductive Device := CPU | CUDA.

Inductive DType := Float32 | Int32 | UInt8 | Bool8.

(** The contents of one tensor; elements are kept as raw words, read
    according to [dtype]. *)
Record TensorData := mkTensorData {
  device : Device;
  dtype : DType;
  shape : list nat;
  storage : list Z
}.

(** A tensor object, by identity. *)
Definition Tensor := nat.

Definition Store := list TensorData.

Definition numel (d : TensorData) : nat := foldr Nat.mul 1 (shape d).

(** Contents of [torch.Tensor([])]: one dimension of extent 0, on the host. *)
Definition empty_data : TensorData :=
  {| device := CPU; dtype := Float32; shape := [0]; storage := [] |}.

#[export] Instance TensorData_inhabited : Inhabited TensorData :=
  populate empty_data.

(** [t.cpu().clone()] as a value: same contents, resident on the host. *)
Definition cpu_clone (d : TensorData) : TensorData :=
  {| device := CPU; dtype := dtype d; shape := shape d; storage := storage d |}.

End Torch.
Export Torch.

(** A Python float is a binary64 value. *)
Definition float := spec_float.

(** The values that travel in argument and result tuples. *)
Inductive PyVal :=
| VNone
| VBool (b : bool)
| VInt (n : Z)
| VFloat (x : float)
| VTensor (t : Tensor).

(** An item of the tuple built by [cpu_deep_copy_tuple]: a fresh host copy
    of a tensor, or the item itself.  The copies are reachable only from the
    local variable [cpu_args], so they are kept as values. *)
Inductive CopiedItem :=
| HostCopy (d : TensorData)
| Same (v : PyVal).

Record Exn := mkExn { exn_class : string; exn_msg : string }.

Inductive NativeEntry :=
| E_rasterize_gaussians
| E_rasterize_gaussians_backward
| E_mark_visible.

(** ** The world *)

Record World := mkWorld {
  store : Store;                               (* tensor contents *)
  files : gmap string (list CopiedItem);       (* working directory *)
  disk_fault : option Exn;                     (* the error a write to disk meets, if any *)
  stdout : list string;                        (* what [print] wrote, oldest first *)
  native_trace : list (NativeEntry * list PyVal)  (* calls into [_C], oldest first *)
}.

Definition with_store (h : Store) (w : World) : World :=
  mkWorld h (files w) (disk_fault w) (stdout w) (native_trace w).

Definition with_files (fs : gmap string (list CopiedItem)) (w : World) : World :=
  mkWorld (store w) fs (disk_fault w) (stdout w) (native_trace w).

Definition with_stdout (out : list string) (w : World) : World :=
  mkWorld (store w) (files w) (disk_fault w) out (native_trace w).

Definition with_native_trace (tr : list (NativeEntry * list PyVal)) (w : World) : World :=
  mkWorld (store w) (files w) (disk_fault w) (stdout w) tr.

(** ** Computations that may raise *)

Definition M (A : Type) : Type := World → World * (Exn + A).

#[export] Instance M_ret : MRet M := λ A a w, (w, inr a).

#[export] Instance M_bind : MBind M := λ A B k m w,
  match m w with
  | (w', inr a) => k a w'
  | (w', inl ex) => (w', inl ex)
  end.

Definition raise {A} (ex : Exn) : M A := λ w, (w, inl ex).

(** [try: body except Exception as ex: handler ex] *)
Definition try_except {A} (body : M A) (handler : Exn → M A) : M A := λ w,
  match body w with
  | (w', inr a) => (w', inr a)
  | (w', inl ex) => handler ex w'
  end.

(** ** Library calls *)

(** [torch.Tensor([])] allocates a new empty tensor. *)
Definition torch_Tensor_empty : M Tensor := λ w,
  (with_store (store w ++ [empty_data]) w, inr (length (store w))).

(** [torch.save(obj, name)]: the write either meets the fault of the disk,
    which is raised, or replaces the file. *)
Definition torch_save (obj : list CopiedItem) (name : string) : M () := λ w,
  match disk_fault w with
  | Some ex => (w, inl ex)
  | None => (with_files (<[name := obj]> (files w)) w, inr ())
  end.

Definition print (s : string) : M () := λ w,
  (with_stdout (stdout w ++ [s]) w, inr ()).

Definition newline : string := String "010" "".

(** ** GaussianRasterizationSettings *)

Record GaussianRasterizationSettings := mkSettings {
  image_height : Z;
  image_width : Z;
  tanfovx : float;
  tanfovy : float;
  bg : Tensor;
  scale_modifier : float;
  cov_offset : float;
  viewmatrix : Tensor;
  projmatrix : Tensor;
  sh_degree : Z;
  prefiltered : bool;
  debug : bool
}.

(** [settings._replace(debug=b)] *)
Definition replace_debug (b : bool) (s : GaussianRasterizationSettings) :
    GaussianRasterizationSettings :=
  mkSettings (image_height s) (image_width s) (tanfovx s) (tanfovy s) (bg s)
    (scale_modifier s) (cov_offset s) (viewmatrix s) (projmatrix s)
    (sh_degree s) (prefiltered s) b.

(** ** cpu_deep_copy_tuple *)

Definition copy_item (h : Store) (item : PyVal) : CopiedItem :=
  match item with
  | VTensor t => HostCopy (cpu_clone (h !!! t))
  | _ => Same item
  end.

Definition cpu_deep_copy_tuple (input_tuple : list PyVal) : M (list CopiedItem) := λ w,
  (w, inr (copy_item (store w) <$> input_tuple)).

(** ** The annotation checks *)

(** [Float[...]]: a floating-point dtype. *)
Definition is_floating (d : TensorData) : bool :=
  match dtype d with Float32 => true | _ => false end.

(** [Float[Tensor, "a b ..."]] once every name of the string has a value. *)
Definition float_of_shape (dims : list nat) (d : TensorData) : bool :=
  is_floating d && bool_decide (shape d = dims).

(** [Float[Tensor, "num_gaussians num_coeffs num_channels"]], the first name
    being bound already and the other two free. *)
Definition float_of_three_axes (num_gaussians : nat) (d : TensorData) : bool :=
  is_floating d
  && match shape d with
     | [n; _; _] => Nat.eqb n num_gaussians
     | _ => false
     end.

(** The value that the first annotation, ["num_gaussians 3"] on [means3D],
    gives to [num_gaussians] if it fits at all. *)
Definition bound_num_gaussians (means3D : TensorData) : nat :=
  default 0 (head (shape means3D)).

(** The annotated parameters that the signatures of [rasterize_gaussians]
    and of [_RasterizeGaussians.forward] share, with the verdict on each.
    The union annotation of [colors_precomp] has the alternative ["*"], one
    axis that stands for any number of axes, so that any floating-point
    tensor fits. *)
Definition operator_annotations
    (means3D means2D sh colors_precomp opacities scales rotations : TensorData) :
    list (string * bool) :=
  let num_gaussians := bound_num_gaussians means3D in
  [ ("means3D", float_of_shape [num_gaussians; 3] means3D);
    ("means2D", float_of_shape [num_gaussians; 3] means2D);
    ("sh", float_of_three_axes num_gaussians sh);
    ("colors_precomp", is_floating colors_precomp);
    ("opacities", float_of_shape [num_gaussians; 1] opacities);
    ("scales", float_of_shape [num_gaussians; 3] scales);
    ("rotations", float_of_shape [num_gaussians; 4] rotations) ].

(** [rasterize_gaussians] also annotates [camerapos] and [camerarot];
    [cov3Ds_precomp] is any tensor. *)
Definition rasterize_gaussians_annotations
    (means3D means2D sh colors_precomp opacities scales rotations camerapos
     camerarot : TensorData) : list (string * bool) :=
  operator_annotations means3D means2D sh colors_precomp opacities scales rotations
  ++ [ ("camerapos", float_of_shape [3] camerapos);
       ("camerarot", float_of_shape [4; 4] camerarot) ].

(** [GaussianRasterizer.forward] annotates three parameters with a shape;
    the others are optional tensors. *)
Definition facade_annotations (means3D means2D opacities : TensorData) :
    list (string * bool) :=
  let num_gaussians := bound_num_gaussians means3D in
  [ ("means3D", float_of_shape [num_gaussians; 3] means3D);
    ("means2D", float_of_shape [num_gaussians; 3] means2D);
    ("opacities", float_of_shape [num_gaussians; 1] opacities) ].

(** The first parameter that does not fit its annotation. *)
Fixpoint first_violation (checks : list (string * bool)) : option string :=
  match checks with
  | [] => None
  | (name, ok) :: rest => if ok then first_violation rest else Some name
  end.

(** The error of the decorators; of its message only the parameter is kept. *)
Definition TypeError (name : string) : Exn := mkExn "TypeError" name.

(** The check that the decorators run before the body, on the contents the
    tensors have at the time of the call. *)
Definition typechecked (annotations : Store → list (string * bool)) : M () := λ w,
  match first_violation (annotations (store w)) with
  | Some name => (w, inl (TypeError name))
  | None => (w, inr ())
  end.

(** ** The autograd context *)

(** The tensors kept by [ctx.save_for_backward]; the autograd engine frees
    them once a backward pass has used them. *)
Inductive SavedTensors :=
| Saved (ts : list Tensor)
| Freed.

Record Ctx := mkCtx {
  ctx_raster_settings : option GaussianRasterizationSettings;
  ctx_num_rendered : option Z;
  saved_tensors : SavedTensors
}.

Definition new_ctx : Ctx := mkCtx None None (Saved []).

(** Reading [ctx.saved_tensors] after they were freed. *)
Definition freed_error : Exn :=
  mkExn "RuntimeError" "Trying to backward through the graph a second time".

Definition AttributeError (name : string) : Exn :=
  mkExn "AttributeError" name.

Definition getattr {A} (name : string) (field : option A) : M A :=
  match field with
  | Some a => mret a
  | None => raise (AttributeError name)
  end.

(** Unpacking a tuple of [got] items into thirteen names; the counts that
    Python appends to the message are left out. *)
Definition unpack_error (got : nat) : Exn :=
  mkExn "ValueError"
    (if got <? 13 then "not enough values to unpack" else "too many values to unpack").

(** Results of the two native entry points, in the order of their tuples. *)
Definition FwOut : Type := Z * Tensor * Tensor * Tensor * Tensor * Tensor * Tensor.

Definition BwOut : Type :=
  Tensor * Tensor * Tensor * Tensor * Tensor * Tensor * Tensor * Tensor * Tensor.

Definition Native (Out : Type) : Type := list PyVal → Store → Store * (Exn + Out).

(** A call [_C.entry( *args )]: the call is recorded, the native code acts on
    the tensor store, and returns its tuple or raises. *)
Definition call_native {Out} (entry : NativeEntry) (f : Native Out)
    (args : list PyVal) : M Out := λ w,
  let '(h, r) := f args (store w) in
  (with_native_trace (native_trace w ++ [(entry, args)]) (with_store h w), r).

Definition snapshot_fw : string := "snapshot_fw.dump".
Definition snapshot_bw : string := "snapshot_bw.dump".

Definition msg_fw : string :=
  newline +:+ "An error occured in forward. Please forward snapshot_fw.dump for debugging.".

Definition msg_bw : string :=
  newline +:+ "An error occured in backward. Writing snapshot_bw.dump for debugging." +:+ newline.

Definition color_contract_violation : Exn :=
  mkExn "Exception" "Please provide excatly one of either SHs or precomputed colors!".

Definition covariance_contract_violation : Exn :=
  mkExn "Exception"
    "Please provide exactly one of either scale/rotation pair or precomputed 3D covariance!".

Definition is_None {A} (o : option A) : bool :=
  match o with None => true | Some _ => false end.

(** [if x is None: x = torch.Tensor([])] *)
Definition or_empty (x : option Tensor) : M Tensor :=
  match x with
  | None => torch_Tensor_empty
  | Some t => mret t
  end.

Record GaussianRasterizer := mkRasterizer {
  raster_settings : GaussianRasterizationSettings
}.

(** ** The bridge, over the native extension *)

Section Bridge.

(** [_C.rasterize_gaussians], [_C.rasterize_gaussians_backward] and
    [_C.mark_visible]. *)
Variable C_rasterize_gaussians : Native FwOut.
Variable C_rasterize_gaussians_backward : Native BwOut.
Variable C_mark_visible : Native Tensor.

(** The argument tuple of [_RasterizeGaussians.forward]. *)
Definition forward_args (means3D sh colors_precomp opacities scales rotations
    cov3Ds_precomp camerapos : Tensor)
    (raster_settings : GaussianRasterizationSettings) : list PyVal :=
  [ VTensor (bg raster_settings);
    VTensor means3D;
    VTensor colors_precomp;
    VTensor opacities;
    VTensor scales;
    VTensor rotations;
    VFloat (scale_modifier raster_settings);
    VFloat (cov_offset raster_settings);
    VTensor cov3Ds_precomp;
    VTensor (viewmatrix raster_settings);
    VTensor (projmatrix raster_settings);
    VFloat (tanfovx raster_settings);
    VFloat (tanfovy raster_settings);
    VInt (image_height raster_settings);
    VInt (image_width raster_settings);
    VTensor sh;
    VInt (sh_degree raster_settings);
    VTensor camerapos;
    VBool (prefiltered raster_settings);
    VBool (debug raster_settings) ].

(** [_RasterizeGaussians.forward]; the updated [ctx] is returned with the
    outputs. *)
Definition forward (ctx : Ctx)
    (means3D means2D sh colors_precomp opacities scales rotations
     cov3Ds_precomp camerapos camerarot : Tensor)
    (raster_settings : GaussianRasterizationSettings) :
    M (Ctx * (Tensor * Tensor * Tensor)) :=
  typechecked (λ h, operator_annotations (h !!! means3D) (h !!! means2D) (h !!! sh)
                      (h !!! colors_precomp) (h !!! opacities) (h !!! scales)
                      (h !!! rotations));;
  let args := forward_args means3D sh colors_precomp opacities scales rotations
                cov3Ds_precomp camerapos raster_settings in
  out ← (if debug raster_settings then
           cpu_args ← cpu_deep_copy_tuple args;
           try_except
             (call_native E_rasterize_gaussians C_rasterize_gaussians args)
             (λ ex,
                torch_save cpu_args snapshot_fw;;
                print msg_fw;;
                raise ex)
         else
           call_native E_rasterize_gaussians C_rasterize_gaussians args);
  let '(num_rendered, color, radii, geomBuffer, binningBuffer, imgBuffer, depth) :=
    (out : FwOut) in
  let ctx :=
    mkCtx (Some raster_settings) (Some num_rendered)
      (Saved [ colors_precomp; means3D; scales; rotations; cov3Ds_precomp; radii;
               sh; geomBuffer; binningBuffer; imgBuffer; camerapos; camerarot;
               depth ]) in
  mret (ctx, (color, radii, depth)).

(** The argument tuple of [_RasterizeGaussians.backward]. *)
Definition backward_args (raster_settings : GaussianRasterizationSettings)
    (num_rendered : Z)
    (colors_precomp means3D scales rotations cov3Ds_precomp radii sh
     geomBuffer binningBuffer imgBuffer camerapos : Tensor)
    (grad_out_color grad_out_depth : Tensor) : list PyVal :=
  [ VTensor (bg raster_settings);
    VTensor means3D;
    VTensor radii;
    VTensor colors_precomp;
    VTensor scales;
    VTensor rotations;
    VFloat (scale_modifier raster_settings);
    VFloat (cov_offset raster_settings);
    VTensor cov3Ds_precomp;
    VTensor (viewmatrix raster_settings);
    VTensor (projmatrix raster_settings);
    VFloat (tanfovx raster_settings);
    VFloat (tanfovy raster_settings);
    VTensor grad_out_color;
    VTensor grad_out_depth;
    VTensor sh;
    VInt (sh_degree raster_settings);
    VTensor camerapos;
    VTensor geomBuffer;
    VInt num_rendered;
    VTensor binningBuffer;
    VTensor imgBuffer;
    VBool (debug raster_settings) ].

(** [_RasterizeGaussians.backward] *)
Definition backward (ctx : Ctx)
    (grad_out_color grad_out_radii grad_out_depth : Tensor) : M (list PyVal) :=
  num_rendered ← getattr "num_rendered" (ctx_num_rendered ctx);
  raster_settings ← getattr "raster_settings" (ctx_raster_settings ctx);
  match saved_tensors ctx with
  | Freed => raise freed_error
  | Saved [ colors_precomp; means3D; scales; rotations; cov3Ds_precomp; radii; sh;
            geomBuffer; binningBuffer; imgBuffer; camerapos; camerarot; depth ] =>
      let args := backward_args raster_settings num_rendered colors_precomp means3D
                    scales rotations cov3Ds_precomp radii sh geomBuffer
                    binningBuffer imgBuffer camerapos grad_out_color grad_out_depth in
      out ← (if debug raster_settings then
               cpu_args ← cpu_deep_copy_tuple args;
               try_except
                 (call_native E_rasterize_gaussians_backward
                    C_rasterize_gaussians_backward args)
                 (λ ex,
                    torch_save cpu_args snapshot_bw;;
                    print msg_bw;;
                    raise ex)
             else
               call_native E_rasterize_gaussians_backward
                 C_rasterize_gaussians_backward args);
      let '(grad_means2D, grad_colors_precomp, grad_opacities, grad_means3D,
            grad_cov3Ds_precomp, grad_sh, grad_scales, grad_rotations,
            grad_camerarot) := (out : BwOut) in
      let grads :=
        [ VTensor grad_means3D;
          VTensor grad_means2D;
          VTensor grad_sh;
          VTensor grad_colors_precomp;
          VTensor grad_opacities;
          VTensor grad_scales;
          VTensor grad_rotations;
          VTensor grad_cov3Ds_precomp;
          VNone;
          VTensor grad_camerarot;
          VNone ] in
      mret grads
  | Saved ts => raise (unpack_error (length ts))
  end.

(** [_RasterizeGaussians.apply]: forward on a new context, which autograd
    keeps for the backward pass. *)
Definition apply (means3D means2D sh colors_precomp opacities scales rotations
    cov3Ds_precomp camerapos camerarot : Tensor)
    (raster_settings : GaussianRasterizationSettings) :
    M (Ctx * (Tensor * Tensor * Tensor)) :=
  forward new_ctx means3D means2D sh colors_precomp opacities scales rotations
    cov3Ds_precomp camerapos camerarot raster_settings.

Definition rasterize_gaussians (means3D means2D sh colors_precomp opacities
    scales rotations cov3Ds_precomp camerapos camerarot : Tensor)
    (raster_settings : GaussianRasterizationSettings) :
    M (Ctx * (Tensor * Tensor * Tensor)) :=
  typechecked (λ h, rasterize_gaussians_annotations (h !!! means3D) (h !!! means2D)
                      (h !!! sh) (h !!! colors_precomp) (h !!! opacities)
                      (h !!! scales) (h !!! rotations) (h !!! camerapos)
                      (h !!! camerarot));;
  apply means3D means2D sh colors_precomp opacities scales rotations
    cov3Ds_precomp camerapos camerarot raster_settings.

(** [GaussianRasterizer.markVisible]; gradient tracking, which the call
    switches off, is not part of the model. *)
Definition markVisible (self : GaussianRasterizer) (positions : Tensor) : M Tensor :=
  let raster_settings := raster_settings self in
  visible ← call_native E_mark_visible C_mark_visible
              [ VTensor positions; VTensor (viewmatrix raster_settings);
                VTensor (projmatrix raster_settings) ];
  mret visible.

(** [GaussianRasterizer.forward] *)
Definition GaussianRasterizer_forward (self : GaussianRasterizer)
    (means3D means2D opacities : Tensor)
    (shs colors_precomp scales rotations cov3D_precomp camerapos camerarot :
       option Tensor) : M (Ctx * (Tensor * Tensor * Tensor)) :=
  typechecked (λ h, facade_annotations (h !!! means3D) (h !!! means2D)
                      (h !!! opacities));;
  let raster_settings := raster_settings self in
  if (is_None shs && is_None colors_precomp)
     || (negb (is_None shs) && negb (is_None colors_precomp))
  then raise color_contract_violation
  else
  if ((is_None scales || is_None rotations) && is_None cov3D_precomp)
     || ((negb (is_None scales) || negb (is_None rotations))
         && negb (is_None cov3D_precomp))
  then raise covariance_contract_violation
  else
    shs ← or_empty shs;
    colors_precomp ← or_empty colors_precomp;
    scales ← or_empty scales;
    rotations ← or_empty rotations;
    cov3D_precomp ← or_empty cov3D_precomp;
    camerapos ← or_empty camerapos;
    camerarot ← or_empty camerarot;
    rasterize_gaussians means3D means2D shs colors_precomp opacities scales
      rotations cov3D_precomp camerapos camerarot raster_settings.

End Bridge.

(** ** Observations used in the statements *)

(** What it means for [c] to be a host-resident deep copy of [item] as it
    stands in the store [h]. *)
Definition host_copy_of (h : Store) (item : PyVal) (c : CopiedItem) : Prop :=
  match item with
  | VTensor t =>
      ∃ d, c = HostCopy d ∧ device d = CPU ∧ dtype d = dtype (h !!! t)
           ∧ shape d = shape (h !!! t) ∧ storage d = storage (h !!! t)
  | _ => c = Same item
  end.

(** The world right after the native code returned or raised. *)
Definition after_native (entry : NativeEntry) (args : list PyVal) (h : Store)
    (w : World) : World :=
  with_native_trace (native_trace w ++ [(entry, args)]) (with_store h w).

(** The contents of the three outputs (image, radii, depth) of a run of the
    operator, if it returned. *)
Definition rendered (r : World * (Exn + (Ctx * (Tensor * Tensor * Tensor)))) :
    option (TensorData * TensorData * TensorData) :=
  match r with
  | (w, inr (_, (color, radii, depth))) =>
      Some (store w !!! color, store w !!! radii, store w !!! depth)
  | (_, inl _) => None
  end.

(** A gradient slot holding [None] or a tensor without elements. *)
Definition is_sentinel (h : Store) (v : PyVal) : bool :=
  match v with
  | VNone => true
  | VTensor t => Nat.eqb (numel (h !!! t)) 0
  | _ => false
  end.

(** An optional facade argument [given] and the tensor [t] the operator gets
    for it: the argument itself, or a tensor allocated after [w] that is
    empty in [w']. *)
Definition given_or_sentinel (w w' : World) (given : option Tensor) (t : Tensor) :
    Prop :=
  match given with
  | Some x => t = x
  | None => length (store w) ≤ t ∧ store w' !! t = Some empty_data
  end.

(** The context that [forward] leaves. *)
Definition saved (rs : GaussianRasterizationSettings) (num_rendered : Z)
    (colors_precomp means3D scales rotations cov3Ds_precomp radii sh
     geomBuffer binningBuffer imgBuffer camerapos camerarot depth : Tensor) : Ctx :=
  mkCtx (Some rs) (Some num_rendered)
    (Saved [ colors_precomp; means3D; scales; rotations; cov3Ds_precomp; radii; sh;
             geomBuffer; binningBuffer; imgBuffer; camerapos; camerarot; depth ]).

(** The parameters of [_RasterizeGaussians.forward] after [ctx], in order. *)
Definition forward_inputs : list string :=
  [ "means3D"; "means2D"; "sh"; "colors_precomp"; "opacities"; "scales";
    "rotations"; "cov3Ds_precomp"; "camerapos"; "camerarot"; "raster_settings" ].

(** The three output tensors of a run of the operator, if it returned. *)
Definition outputs (r : World * (Exn + (Ctx * (Tensor * Tensor * Tensor)))) :
    option (Tensor * Tensor * Tensor) :=
  match r.2 with
  | inr (_, outs) => Some outs
  | inl _ => None
  end.

(** [w'] is [w] after some empty tensors were allocated, and nothing else. *)
Definition allocated_sentinels (w w' : World) : Prop :=
  (∃ k, store w' = store w ++ replicate k empty_data)
  ∧ files w' = files w ∧ disk_fault w' = disk_fault w
  ∧ stdout w' = stdout w ∧ native_trace w' = native_trace w.

(** The decorator of [_RasterizeGaussians.forward] accepts the call. *)
Definition forward_accepts (h : Store)
    (means3D means2D sh colors_precomp opacities scales rotations : Tensor) : Prop :=
  first_violation
    (operator_annotations (h !!! means3D) (h !!! means2D) (h !!! sh)
       (h !!! colors_precomp) (h !!! opacities) (h !!! scales) (h !!! rotations))
  = None.

(** The decorator of [GaussianRasterizer.forward] accepts the call. *)
Definition facade_accepts (h : Store) (means3D means2D opacities : Tensor) : Prop :=
  first_violation
    (facade_annotations (h !!! means3D) (h !!! means2D) (h !!! opacities))
  = None.

(** What the operator sees of an optional argument of the facade: the
    contents of the given tensor, or those of an empty tensor. *)
Definition content (h : Store) (given : option Tensor) : TensorData :=
  match given with
  | Some t => h !!! t
  | None => empty_data
  end.

(** The verdicts of the decorator of [rasterize_gaussians] on a call of the
    facade: an omitted argument arrives as an empty tensor. *)
Definition delegation_annotations (h : Store) (means3D means2D opacities : Tensor)
    (shs colors_precomp scales rotations camerapos camerarot : option Tensor) :
    list (string * bool) :=
  rasterize_gaussians_annotations (h !!! means3D) (h !!! means2D) (content h shs)
    (content h colors_precomp) (h !!! opacities) (content h scales)
    (content h rotations) (content h camerapos) (content h camerarot).

(** The number of omitted arguments in a list of optional arguments. *)
Definition omitted (opts : list (option Tensor)) : nat :=
  foldr (λ o k, if is_None o then S k else k) 0 opts.

(** The tensors that stand for a list of optional arguments once the
    omitted ones were replaced, from left to right, by tensors allocated at
    [next], [next + 1], and so on. *)
Fixpoint slots (next : nat) (opts : list (option Tensor)) : list Tensor :=
  match opts with
  | [] => []
  | Some x :: rest => x :: slots next rest
  | None :: rest => next :: slots (S next) rest
  end.

(** [w] after [k] empty tensors were allocated. *)
Definition grow (k : nat) (w : World) : World :=
  with_store (store w ++ replicate k empty_data) w.

(** Exactly one colour input. *)
Definition one_colour (shs colors_precomp : option Tensor) : Prop :=
  (shs ≠ None ∧ colors_precomp = None) ∨ (shs = None ∧ colors_precomp ≠ None).

(** Either scales and rotations without a covariance, or a covariance
    without scales and rotations. *)
Definition one_covariance (scales rotations cov3D_precomp : option Tensor) : Prop :=
  (scales ≠ None ∧ rotations ≠ None ∧ cov3D_precomp = None)
  ∨ (scales = None ∧ rotations = None ∧ cov3D_precomp ≠ None).


(** ** A small scene and native stand-ins, for concrete runs *)

Module Scene.

Definition one : float := S754_finite false 4503599627370496 (-52).

Definition cuda (sh : list nat) (xs : list Z) : TensorData :=
  mkTensorData CUDA Float32 sh xs.

(** One Gaussian seen by one camera; the last three tensors are upstream
    gradients for (image, radii, depth) of a 1x1 render. *)
Definition tensors : Store :=
  [ cuda [3] [0; 0; 0]%Z;                                   (* 0 bg *)
    cuda [4; 4] [1;0;0;0; 0;1;0;0; 0;0;1;0; 0;0;0;1]%Z;     (* 1 viewmatrix *)
    cuda [4; 4] [1;0;0;0; 0;1;0;0; 0;0;1;1; 0;0;0;0]%Z;     (* 2 projmatrix *)
    cuda [1; 3] [10; 20; 30]%Z;                             (* 3 means3D *)
    cuda [1; 3] [0; 0; 0]%Z;                                (* 4 means2D *)
    cuda [1; 1] [7]%Z;                                      (* 5 opacities *)
    cuda [1; 1; 3] [4; 5; 6]%Z;                             (* 6 shs *)
    cuda [1; 3] [1; 1; 1]%Z;                                (* 7 scales *)
    cuda [1; 4] [1; 0; 0; 0]%Z;                             (* 8 rotations *)
    cuda [3] [0; 0; 5]%Z;                                   (* 9 camerapos *)
    cuda [4; 4] [1;0;0;0; 0;1;0;0; 0;0;1;0; 0;0;0;1]%Z;     (* 10 camerarot *)
    cuda [3; 1; 1] [1; 1; 1]%Z;                             (* 11 grad of image *)
    cuda [1] [0]%Z;                                         (* 12 grad of radii *)
    cuda [1; 1] [1]%Z;                                      (* 13 grad of depth *)
    cuda [1] [9]%Z;                                         (* 14 another grad of radii *)
    empty_data;                                             (* 15 colors_precomp, not provided *)
    empty_data ].                                           (* 16 cov3Ds_precomp, not provided *)

Definition settings (dbg : bool) : GaussianRasterizationSettings :=
  mkSettings 1 1 one one 0 one one 1 2 0 false dbg.

Definition world (fault : option Exn) : World :=
  mkWorld tensors ∅ fault [] [].

Definition cuda_error : Exn :=
  mkExn "RuntimeError" "CUDA error: an illegal memory access was encountered".

Definition disk_full : Exn :=
  mkExn "OSError" "[Errno 28] No space left on device".

(** A rasterizer that renders: it allocates image, radii, the three
    buffers and depth. *)
Definition rasterizer : Native FwOut := λ args h,
  let n := length h in
  (h ++ [ cuda [3; 1; 1] [40; 50; 60]%Z;
          mkTensorData CUDA Int32 [1] [2]%Z;
          mkTensorData CUDA UInt8 [4] [1; 2; 3; 4]%Z;
          mkTensorData CUDA UInt8 [2] [5; 6]%Z;
          mkTensorData CUDA UInt8 [2] [7; 8]%Z;
          cuda [1; 1] [25]%Z ],
   inr (1%Z, n, n + 1, n + 2, n + 3, n + 4, n + 5)).

(** A rasterizer whose image depends on the debug flag it is passed. *)
Definition flag_sensitive_rasterizer : Native FwOut := λ args h,
  let n := length h in
  let pixel := match last args with Some (VBool true) => 41%Z | _ => 40%Z end in
  (h ++ [ cuda [3; 1; 1] [pixel; 50; 60]%Z;
          mkTensorData CUDA Int32 [1] [2]%Z;
          mkTensorData CUDA UInt8 [4] [1; 2; 3; 4]%Z;
          mkTensorData CUDA UInt8 [2] [5; 6]%Z;
          mkTensorData CUDA UInt8 [2] [7; 8]%Z;
          cuda [1; 1] [25]%Z ],
   inr (1%Z, n, n + 1, n + 2, n + 3, n + 4, n + 5)).

(** Native code that overwrites its second argument and then fails. *)
Definition corrupt_then_fail {Out} : Native Out := λ args h,
  match args !! 1 with
  | Some (VTensor t) => (<[t := cuda [1; 3] [666; 666; 666]%Z]> h, inl cuda_error)
  | _ => (h, inl cuda_error)
  end.

(** A backward pass that returns nine gradients with elements. *)
Definition differentiator : Native BwOut := λ args h,
  let n := length h in
  (h ++ [ cuda [1; 3] [11; 12; 13]%Z;     (* grad_means2D *)
          cuda [1; 3] [0; 0; 0]%Z;        (* grad_colors_precomp *)
          cuda [1; 1] [3]%Z;              (* grad_opacities *)
          cuda [1; 3] [21; 22; 23]%Z;     (* grad_means3D *)
          cuda [1; 6] [0; 0; 0; 0; 0; 0]%Z; (* grad_cov3Ds_precomp *)
          cuda [1; 1; 3] [31; 32; 33]%Z;  (* grad_sh *)
          cuda [1; 3] [41; 42; 43]%Z;     (* grad_scales *)
          cuda [1; 4] [51; 52; 53; 54]%Z; (* grad_rotations *)
          cuda [4; 4] [0;0;0;0; 0;0;0;0; 0;0;0;0; 0;0;0;0]%Z ], (* grad_camerarot *)
   inr (n, n + 1, n + 2, n + 3, n + 4, n + 5, n + 6, n + 7, n + 8)).

Definition rasterizer_module : GaussianRasterizer := mkRasterizer (settings false).

(** The scene with every tensor on the host. *)
Definition host_world : World :=
  mkWorld (cpu_clone <$> tensors) ∅ None [] [].

(** The scene in a directory that holds snapshots of earlier failures. *)
Definition world_with_old_snapshots : World :=
  mkWorld tensors (<[snapshot_fw := [Same VNone]]> (<[snapshot_bw := [Same (VInt 7)]]> ∅))
    None [] [].

(** A frustum test that allocates one flag per position. *)
Definition culler : Native Tensor := λ args h,
  (h ++ [ mkTensorData CUDA Bool8 [1] [1]%Z ], inr (length h)).

(** A forward pass over the scene: SH colours, scales and rotations are the
    provided inputs, tensors 15 and 16 the empty ones. *)
Definition render (dbg : bool) (fault : option Exn) :
    World * (Exn + (Ctx * (Tensor * Tensor * Tensor))) :=
  forward rasterizer new_ctx 3 4 6 15 5 7 8 16 9 10 (settings dbg) (world fault).

Definition rendered_world (dbg : bool) (fault : option Exn) : World :=
  (render dbg fault).1.

(** The context that pass keeps: image 17, radii 18, buffers 19 to 21 and
    depth 22 were allocated by the rasterizer. *)
Definition kept (dbg : bool) : Ctx :=
  saved (settings dbg) 1 15 3 7 8 16 18 6 19 20 21 9 10 22.

End Scene.


(** ** Properties *)

(** Unfolds the operations of [M] so that a run reduces to the native call. *)
Ltac run_M :=
  unfold mbind, M_bind, mret, M_ret, try_except, call_native,
    cpu_deep_copy_tuple, torch_save, print, raise, getattr, after_native;
  simpl.

Lemma cpu_deep_copy_is_host_copy (h : Store) (args : list PyVal) :
  Forall2 (host_copy_of h) args (copy_item h <$> args).
Proof.
  induction args as [|item args IH]; simpl; constructor; [|exact IH].
  destruct item; simpl; try reflexivity.
  eexists; repeat split; reflexivity.
Qed.

Lemma typechecked_accepts annotations w :
  first_violation (annotations (store w)) = None →
  typechecked annotations w = (w, inr ()).
Proof. unfold typechecked. by intros ->. Qed.

Lemma typechecked_rejects annotations w name :
  first_violation (annotations (store w)) = Some name →
  typechecked annotations w = (w, inl (TypeError name)).
Proof. unfold typechecked. by intros ->. Qed.

(** A list of annotations is accepted when every verdict is positive. *)
Lemma first_violation_None checks :
  first_violation checks = None ↔ ∀ name ok, (name, ok) ∈ checks → ok = true.
Proof.
  induction checks as [|[name ok] rest IH]; simpl.
  - split; [intros _ ? ? Hin; by apply elem_of_nil in Hin | done].
  - destruct ok.
    + rewrite IH. split.
      * intros Hrest name' ok' Hin. apply elem_of_cons in Hin as [[= -> ->]|Hin]; eauto.
      * intros Hall name' ok' Hin. apply (Hall name'). by right.
    + split; [done|]. intros Hall. discriminate (Hall name false). by left.
Qed.

(** Passes the check of a decorator that accepts the call. *)
Ltac pass_check Hok :=
  unfold mbind at 1; unfold M_bind at 1;
  rewrite typechecked_accepts by exact Hok; cbv beta iota.

Section BridgeProperties.

Variable C_rasterize_gaussians : Native FwOut.
Variable C_rasterize_gaussians_backward : Native BwOut.

(** A call that the decorator of [forward] rejects. *)
Lemma forward_rejected ctx means3D means2D sh colors_precomp opacities
    scales rotations cov3Ds_precomp camerapos camerarot rs w name :
  first_violation
    (operator_annotations (store w !!! means3D) (store w !!! means2D)
       (store w !!! sh) (store w !!! colors_precomp) (store w !!! opacities)
       (store w !!! scales) (store w !!! rotations)) = Some name →
  forward C_rasterize_gaussians ctx means3D means2D sh colors_precomp opacities scales
      rotations cov3Ds_precomp camerapos camerarot rs w
    = (w, inl (TypeError name)).
Proof.
  intros Hbad. unfold forward. unfold mbind at 1; unfold M_bind at 1.
  rewrite typechecked_rejects with (name := name) by exact Hbad. reflexivity.
Qed.

(** What [forward] does once the reply of the native code is known. *)
Lemma forward_native_returns ctx means3D means2D sh colors_precomp opacities
    scales rotations cov3Ds_precomp camerapos camerarot rs w h
    num_rendered color radii geomBuffer binningBuffer imgBuffer depth :
  let args := forward_args means3D sh colors_precomp opacities scales rotations
                cov3Ds_precomp camerapos rs in
  forward_accepts (store w) means3D means2D sh colors_precomp opacities scales
    rotations →
  C_rasterize_gaussians args (store w)
    = (h, inr (num_rendered, color, radii, geomBuffer, binningBuffer, imgBuffer, depth)) →
  forward C_rasterize_gaussians ctx means3D means2D sh colors_precomp opacities scales rotations
      cov3Ds_precomp camerapos camerarot rs w
    = (after_native E_rasterize_gaussians args h w,
       inr (saved rs num_rendered colors_precomp means3D scales rotations
              cov3Ds_precomp radii sh geomBuffer binningBuffer imgBuffer camerapos
              camerarot depth,
            (color, radii, depth))).
Proof.
  intros args Hok Hnative. unfold forward. pass_check Hok. fold args.
  destruct (debug rs); run_M; rewrite Hnative; reflexivity.
Qed.

Lemma forward_native_raises ctx means3D means2D sh colors_precomp opacities
    scales rotations cov3Ds_precomp camerapos camerarot rs w h ex :
  let args := forward_args means3D sh colors_precomp opacities scales rotations
                cov3Ds_precomp camerapos rs in
  forward_accepts (store w) means3D means2D sh colors_precomp opacities scales
    rotations →
  C_rasterize_gaussians args (store w) = (h, inl ex) →
  forward C_rasterize_gaussians ctx means3D means2D sh colors_precomp opacities scales rotations
      cov3Ds_precomp camerapos camerarot rs w
    = let w1 := after_native E_rasterize_gaussians args h w in
      if debug rs then
        match disk_fault w with
        | Some failure => (w1, inl failure)
        | None =>
            (with_stdout (stdout w ++ [msg_fw])
               (with_files (<[snapshot_fw := copy_item (store w) <$> args]> (files w)) w1),
             inl ex)
        end
      else (w1, inl ex).
Proof.
  intros args Hok Hnative. unfold forward. pass_check Hok. fold args.
  destruct (debug rs); run_M; rewrite Hnative; simpl; [|reflexivity].
  destruct (disk_fault w); reflexivity.
Qed.

Lemma forward_trace ctx means3D means2D sh colors_precomp opacities
    scales rotations cov3Ds_precomp camerapos camerarot rs w :
  forward_accepts (store w) means3D means2D sh colors_precomp opacities scales
    rotations →
  native_trace
    (forward C_rasterize_gaussians ctx means3D means2D sh colors_precomp opacities scales
       rotations cov3Ds_precomp camerapos camerarot rs w).1
    = native_trace w
      ++ [(E_rasterize_gaussians,
           forward_args means3D sh colors_precomp opacities scales rotations
             cov3Ds_precomp camerapos rs)].
Proof.
  intros Hok. set (args := forward_args _ _ _ _ _ _ _ _ _).
  destruct (C_rasterize_gaussians args (store w)) as [h [ex|out]] eqn:Hnative.
  - erewrite forward_native_raises; [|exact Hok|exact Hnative].
    fold args. simpl.
    destruct (debug rs); [destruct (disk_fault w)|]; reflexivity.
  - destruct out as [[[[[[n color] radii] geom] binning] img] depth].
    erewrite forward_native_returns; [|exact Hok|exact Hnative].
    reflexivity.
Qed.

(** A successful [forward] means that the decorator accepted the call and
    the native code returned, and fixes the context kept for the backward
    pass. *)
Lemma forward_returns_inv ctx0 means3D means2D sh colors_precomp opacities
    scales rotations cov3Ds_precomp camerapos camerarot rs w0 w1 ctx color radii depth :
  forward C_rasterize_gaussians ctx0 means3D means2D sh colors_precomp opacities scales
      rotations cov3Ds_precomp camerapos camerarot rs w0
    = (w1, inr (ctx, (color, radii, depth))) →
  ∃ h num_rendered geomBuffer binningBuffer imgBuffer,
    C_rasterize_gaussians
        (forward_args means3D sh colors_precomp opacities scales rotations
           cov3Ds_precomp camerapos rs) (store w0)
      = (h, inr (num_rendered, color, radii, geomBuffer, binningBuffer, imgBuffer, depth))
    ∧ ctx = saved rs num_rendered colors_precomp means3D scales rotations
              cov3Ds_precomp radii sh geomBuffer binningBuffer imgBuffer camerapos
              camerarot depth.
Proof.
  destruct (first_violation
              (operator_annotations (store w0 !!! means3D) (store w0 !!! means2D)
                 (store w0 !!! sh) (store w0 !!! colors_precomp)
                 (store w0 !!! opacities) (store w0 !!! scales)
                 (store w0 !!! rotations))) as [name|] eqn:Hcheck.
  { erewrite forward_rejected by exact Hcheck. discriminate. }
  set (args := forward_args _ _ _ _ _ _ _ _ _).
  destruct (C_rasterize_gaussians args (store w0)) as [h [ex|out]] eqn:Hnative.
  - erewrite forward_native_raises; [|exact Hcheck|exact Hnative].
    fold args. simpl.
    destruct (debug rs); [destruct (disk_fault w0)|]; discriminate.
  - destruct out as [[[[[[n c] r] geom] binning] img] d].
    erewrite forward_native_returns; [|exact Hcheck|exact Hnative].
    intros [= <- <- <- <- <-]. eauto 10.
Qed.

Lemma backward_native_returns rs n colors_precomp means3D scales rotations
    cov3Ds_precomp radii sh geomBuffer binningBuffer imgBuffer camerapos camerarot
    depth grad_out_color grad_out_radii grad_out_depth w h
    grad_means2D grad_colors_precomp grad_opacities grad_means3D
    grad_cov3Ds_precomp grad_sh grad_scales grad_rotations grad_camerarot :
  let args := backward_args rs n colors_precomp means3D scales rotations
                cov3Ds_precomp radii sh geomBuffer binningBuffer imgBuffer camerapos
                grad_out_color grad_out_depth in
  C_rasterize_gaussians_backward args (store w)
    = (h, inr (grad_means2D, grad_colors_precomp, grad_opacities, grad_means3D,
               grad_cov3Ds_precomp, grad_sh, grad_scales, grad_rotations,
               grad_camerarot)) →
  backward C_rasterize_gaussians_backward
      (saved rs n colors_precomp means3D scales rotations cov3Ds_precomp radii sh
         geomBuffer binningBuffer imgBuffer camerapos camerarot depth)
      grad_out_color grad_out_radii grad_out_depth w
    = (after_native E_rasterize_gaussians_backward args h w,
       inr [ VTensor grad_means3D; VTensor grad_means2D; VTensor grad_sh;
             VTensor grad_colors_precomp; VTensor grad_opacities;
             VTensor grad_scales; VTensor grad_rotations;
             VTensor grad_cov3Ds_precomp; VNone; VTensor grad_camerarot; VNone ]).
Proof.
  intros args Hnative. unfold backward, saved, getattr, mbind, M_bind, mret, M_ret.
  cbn [saved_tensors ctx_num_rendered ctx_raster_settings]. fold args.
  destruct (debug rs); run_M; rewrite Hnative; reflexivity.
Qed.

Lemma backward_native_raises rs n colors_precomp means3D scales rotations
    cov3Ds_precomp radii sh geomBuffer binningBuffer imgBuffer camerapos camerarot
    depth grad_out_color grad_out_radii grad_out_depth w h ex :
  let args := backward_args rs n colors_precomp means3D scales rotations
                cov3Ds_precomp radii sh geomBuffer binningBuffer imgBuffer camerapos
                grad_out_color grad_out_depth in
  C_rasterize_gaussians_backward args (store w) = (h, inl ex) →
  backward C_rasterize_gaussians_backward
      (saved rs n colors_precomp means3D scales rotations cov3Ds_precomp radii sh
         geomBuffer binningBuffer imgBuffer camerapos camerarot depth)
      grad_out_color grad_out_radii grad_out_depth w
    = let w1 := after_native E_rasterize_gaussians_backward args h w in
      if debug rs then
        match disk_fault w with
        | Some failure => (w1, inl failure)
        | None =>
            (with_stdout (stdout w ++ [msg_bw])
               (with_files (<[snapshot_bw := copy_item (store w) <$> args]> (files w)) w1),
             inl ex)
        end
      else (w1, inl ex).
Proof.
  intros args Hnative. unfold backward, saved, getattr, mbind, M_bind, mret, M_ret.
  cbn [saved_tensors ctx_num_rendered ctx_raster_settings]. fold args.
  destruct (debug rs); run_M; rewrite Hnative; simpl; [|reflexivity].
  destruct (disk_fault w); reflexivity.
Qed.

Lemma backward_trace rs n colors_precomp means3D scales rotations
    cov3Ds_precomp radii sh geomBuffer binningBuffer imgBuffer camerapos camerarot
    depth grad_out_color grad_out_radii grad_out_depth w :
  native_trace
    (backward C_rasterize_gaussians_backward
       (saved rs n colors_precomp means3D scales rotations cov3Ds_precomp radii sh
          geomBuffer binningBuffer imgBuffer camerapos camerarot depth)
       grad_out_color grad_out_radii grad_out_depth w).1
    = native_trace w
      ++ [(E_rasterize_gaussians_backward,
           backward_args rs n colors_precomp means3D scales rotations
             cov3Ds_precomp radii sh geomBuffer binningBuffer imgBuffer camerapos
             grad_out_color grad_out_depth)].
Proof.
  set (args := backward_args _ _ _ _ _ _ _ _ _ _ _ _ _ _ _).
  destruct (C_rasterize_gaussians_backward args (store w)) as [h [ex|out]] eqn:Hnative.
  - rewrite (backward_native_raises _ _ _ _ _ _ _ _ _ _ _ _ _ _ _ _ grad_out_radii _ _ _ _
               Hnative).
    fold args. simpl.
    destruct (debug rs); [destruct (disk_fault w)|]; reflexivity.
  - destruct out as [[[[[[[[g1 g2] g3] g4] g5] g6] g7] g8] g9].
    rewrite (backward_native_returns _ _ _ _ _ _ _ _ _ _ _ _ _ _ _ _ grad_out_radii _ _ _
               _ _ _ _ _ _ _ _ _ Hnative).
    reflexivity.
Qed.

(** *** Marshalling *)

(** C6. A run of [_RasterizeGaussians.forward] passes an argument tuple to
    [_C.rasterize_gaussians] exactly once, unless its decorator rejects the
    call, in which case the [TypeError] is raised and nothing is passed. The
    tuple is (bg, means3D, colors_precomp, opacities, scales, rotations,
    scale_modifier, cov_offset, cov3Ds_precomp, viewmatrix, projmatrix,
    tanfovx, tanfovy, image_height, image_width, sh, sh_degree, camerapos,
    prefiltered, debug), in this order; and when the native code returns
    (num_rendered, color, radii, geomBuffer, binningBuffer, imgBuffer,
    depth), forward returns (color, radii, depth) and keeps num_rendered,
    radii, the three buffers and depth in the context. *)
Theorem forward_native_call ctx means3D means2D sh colors_precomp opacities
    scales rotations cov3Ds_precomp camerapos camerarot rs w :
  let args :=
    [ VTensor (bg rs); VTensor means3D; VTensor colors_precomp; VTensor opacities;
      VTensor scales; VTensor rotations; VFloat (scale_modifier rs);
      VFloat (cov_offset rs); VTensor cov3Ds_precomp; VTensor (viewmatrix rs);
      VTensor (projmatrix rs); VFloat (tanfovx rs); VFloat (tanfovy rs);
      VInt (image_height rs); VInt (image_width rs); VTensor sh;
      VInt (sh_degree rs); VTensor camerapos; VBool (prefiltered rs);
      VBool (debug rs) ] in
  let run :=
    forward C_rasterize_gaussians ctx means3D means2D sh colors_precomp opacities
      scales rotations cov3Ds_precomp camerapos camerarot rs w in
  match
    first_violation
      (operator_annotations (store w !!! means3D) (store w !!! means2D)
         (store w !!! sh) (store w !!! colors_precomp) (store w !!! opacities)
         (store w !!! scales) (store w !!! rotations))
  with
  | Some name => run = (w, inl (TypeError name))
  | None =>
      native_trace run.1 = native_trace w ++ [(E_rasterize_gaussians, args)]
      ∧ ∀ h num_rendered color radii geomBuffer binningBuffer imgBuffer depth,
          C_rasterize_gaussians args (store w)
            = (h, inr (num_rendered, color, radii, geomBuffer, binningBuffer,
                       imgBuffer, depth)) →
          run.2
            = inr (mkCtx (Some rs) (Some num_rendered)
                     (Saved [ colors_precomp; means3D; scales; rotations;
                              cov3Ds_precomp; radii; sh; geomBuffer; binningBuffer;
                              imgBuffer; camerapos; camerarot; depth ]),
                   (color, radii, depth))
  end.
Proof.
  intros args run.
  destruct (first_violation _) as [name|] eqn:Hcheck.
  - apply forward_rejected. exact Hcheck.
  - split.
    + apply forward_trace. exact Hcheck.
    + intros h n color radii geom binning img depth Hnative. subst run.
      erewrite forward_native_returns; [|exact Hcheck|exact Hnative].
      reflexivity.
Qed.

(** C7. On the context saved by a forward pass, every run of
    [_RasterizeGaussians.backward] makes exactly one call to
    [_C.rasterize_gaussians_backward], with the twenty-three arguments (bg,
    means3D, radii, colors_precomp, scales, rotations, scale_modifier,
    cov_offset, cov3Ds_precomp, viewmatrix, projmatrix, tanfovx, tanfovy,
    grad_out_color, grad_out_depth, sh, sh_degree, camerapos, geomBuffer,
    num_rendered, binningBuffer, imgBuffer, debug) in this order, all taken
    from the inputs and native results of that forward pass and from the
    incoming image and depth gradients; and the native result is read as
    the gradients of (means2D, colors_precomp, opacities, means3D,
    cov3Ds_precomp, sh, scales, rotations, camerarot). *)
Theorem backward_native_call ctx0 means3D means2D sh colors_precomp opacities
    scales rotations cov3Ds_precomp camerapos camerarot rs w0 w1 ctx color radii depth :
  forward C_rasterize_gaussians ctx0 means3D means2D sh colors_precomp opacities scales
      rotations cov3Ds_precomp camerapos camerarot rs w0
    = (w1, inr (ctx, (color, radii, depth))) →
  ∃ h0 num_rendered geomBuffer binningBuffer imgBuffer,
    C_rasterize_gaussians
        (forward_args means3D sh colors_precomp opacities scales rotations
           cov3Ds_precomp camerapos rs) (store w0)
      = (h0, inr (num_rendered, color, radii, geomBuffer, binningBuffer, imgBuffer,
                  depth))
    ∧ ∀ grad_out_color grad_out_radii grad_out_depth w,
        let args :=
          [ VTensor (bg rs); VTensor means3D; VTensor radii; VTensor colors_precomp;
            VTensor scales; VTensor rotations; VFloat (scale_modifier rs);
            VFloat (cov_offset rs); VTensor cov3Ds_precomp; VTensor (viewmatrix rs);
            VTensor (projmatrix rs); VFloat (tanfovx rs); VFloat (tanfovy rs);
            VTensor grad_out_color; VTensor grad_out_depth; VTensor sh;
            VInt (sh_degree rs); VTensor camerapos; VTensor geomBuffer;
            VInt num_rendered; VTensor binningBuffer; VTensor imgBuffer;
            VBool (debug rs) ] in
        let run :=
          backward C_rasterize_gaussians_backward ctx grad_out_color grad_out_radii
            grad_out_depth w in
        native_trace run.1
          = native_trace w ++ [(E_rasterize_gaussians_backward, args)]
        ∧ ∀ h grad_means2D grad_colors_precomp grad_opacities grad_means3D
            grad_cov3Ds_precomp grad_sh grad_scales grad_rotations grad_camerarot,
            C_rasterize_gaussians_backward args (store w)
              = (h, inr (grad_means2D, grad_colors_precomp, grad_opacities,
                         grad_means3D, grad_cov3Ds_precomp, grad_sh, grad_scales,
                         grad_rotations, grad_camerarot)) →
            run.2
              = inr [ VTensor grad_means3D; VTensor grad_means2D; VTensor grad_sh;
                      VTensor grad_colors_precomp; VTensor grad_opacities;
                      VTensor grad_scales; VTensor grad_rotations;
                      VTensor grad_cov3Ds_precomp; VNone; VTensor grad_camerarot;
                      VNone ].
Proof.
  intros Hfw.
  destruct (forward_returns_inv _ _ _ _ _ _ _ _ _ _ _ _ _ _ _ _ _ _ Hfw)
    as (h0 & n & geom & binning & img & Hnative & ->).
  exists h0, n, geom, binning, img. split; [exact Hnative|].
  intros gc gr gd w args run. split.
  - apply backward_trace.
  - intros h g1 g2 g3 g4 g5 g6 g7 g8 g9 Hbw. subst run.
    rewrite (backward_native_returns _ _ _ _ _ _ _ _ _ _ _ _ _ _ _ _ gr _ _ _
               _ _ _ _ _ _ _ _ _ Hbw).
    reflexivity.
Qed.

(** C8. The backward pass does not look at the gradient of radii: two runs
    on the same context, image gradient, depth gradient and world that
    differ in [grad_out_radii] are the same run; they make the same native
    call and return the same gradient tuple. *)
Theorem backward_ignores_grad_out_radii ctx grad_out_color grad_out_radii
    grad_out_radii' grad_out_depth w :
  let run1 :=
    backward C_rasterize_gaussians_backward ctx grad_out_color grad_out_radii
      grad_out_depth w in
  let run2 :=
    backward C_rasterize_gaussians_backward ctx grad_out_color grad_out_radii'
      grad_out_depth w in
  native_trace run1.1 = native_trace run2.1 ∧ run1.2 = run2.2 ∧ run1 = run2.
Proof.
  intros run1 run2.
  assert (Hsame : run1 = run2) by reflexivity.
  rewrite Hsame. auto.
Qed.

(** C1 (amended). On the context saved by a forward pass, whichever colour
    and covariance inputs were the provided ones, a backward pass whose
    native call returns yields one entry per forward input, in the order of
    the forward inputs; the entries for [camerapos] and [raster_settings]
    are [None] and every other entry is the gradient that the native code
    returned for that very input. In particular the entry for [means2D] is
    the native [grad_means2D], not [None]. *)
Theorem backward_gradient_tuple ctx0 means3D means2D sh colors_precomp opacities
    scales rotations cov3Ds_precomp camerapos camerarot rs w0 w1 ctx color radii depth :
  forward C_rasterize_gaussians ctx0 means3D means2D sh colors_precomp opacities scales
      rotations cov3Ds_precomp camerapos camerarot rs w0
    = (w1, inr (ctx, (color, radii, depth))) →
  ∀ grad_out_color grad_out_radii grad_out_depth w,
    let run :=
      backward C_rasterize_gaussians_backward ctx grad_out_color grad_out_radii
        grad_out_depth w in
    ∃ args,
      native_trace run.1 = native_trace w ++ [(E_rasterize_gaussians_backward, args)]
      ∧ ∀ h grad_means2D grad_colors_precomp grad_opacities grad_means3D
          grad_cov3Ds_precomp grad_sh grad_scales grad_rotations grad_camerarot,
          C_rasterize_gaussians_backward args (store w)
            = (h, inr (grad_means2D, grad_colors_precomp, grad_opacities,
                       grad_means3D, grad_cov3Ds_precomp, grad_sh, grad_scales,
                       grad_rotations, grad_camerarot)) →
          ∃ grads,
            run.2 = inr grads
            ∧ zip forward_inputs grads
              = [ ("means3D", VTensor grad_means3D);
                  ("means2D", VTensor grad_means2D);
                  ("sh", VTensor grad_sh);
                  ("colors_precomp", VTensor grad_colors_precomp);
                  ("opacities", VTensor grad_opacities);
                  ("scales", VTensor grad_scales);
                  ("rotations", VTensor grad_rotations);
                  ("cov3Ds_precomp", VTensor grad_cov3Ds_precomp);
                  ("camerapos", VNone);
                  ("camerarot", VTensor grad_camerarot);
                  ("raster_settings", VNone) ]
            ∧ length grads = length forward_inputs
            ∧ (∀ i name, forward_inputs !! i = Some name →
                 if decide (name = "camerapos" ∨ name = "raster_settings")
                 then grads !! i = Some VNone
                 else ∃ t, grads !! i = Some (VTensor t))
            ∧ (∀ i, forward_inputs !! i = Some "means2D" →
                 grads !! i = Some (VTensor grad_means2D)).
Proof.
  intros Hfw gc gr gd w run.
  destruct (forward_returns_inv _ _ _ _ _ _ _ _ _ _ _ _ _ _ _ _ _ _ Hfw)
    as (h0 & n & geom & binning & img & Hnative & ->).
  eexists. split; [apply backward_trace|].
  intros h g1 g2 g3 g4 g5 g6 g7 g8 g9 Hbw. subst run.
  rewrite (backward_native_returns _ _ _ _ _ _ _ _ _ _ _ _ _ _ _ _ gr _ _ _
             _ _ _ _ _ _ _ _ _ Hbw).
  eexists. split; [reflexivity|]. split; [reflexivity|]. split; [reflexivity|]. split.
  - intros i name Hi.
    do 11 (destruct i as [|i]; [injection Hi as <-; simpl; eauto|]).
    discriminate Hi.
  - intros i Hi.
    do 11 (destruct i as [|i]; [first [discriminate Hi | reflexivity]|]).
    discriminate Hi.
Qed.

(** *** Debug snapshots *)

(** C3 (amended). When the native call of a pass raises [ex] (in forward,
    after the decorator has accepted the call): with debug enabled and
    provided the write of the snapshot file succeeds, the file
    [snapshot_fw.dump] ([snapshot_bw.dump] in backward) then holds host
    copies of the arguments as they were before the call, the diagnostic
    message is printed, and [ex] itself is raised; with debug disabled, [ex]
    is raised, no file is written and nothing is printed. *)
Theorem snapshot_on_native_failure :
  (∀ ctx means3D means2D sh colors_precomp opacities scales rotations
     cov3Ds_precomp camerapos camerarot rs w h ex,
     let args := forward_args means3D sh colors_precomp opacities scales rotations
                   cov3Ds_precomp camerapos rs in
     let run :=
       forward C_rasterize_gaussians ctx means3D means2D sh colors_precomp
         opacities scales rotations cov3Ds_precomp camerapos camerarot rs w in
     forward_accepts (store w) means3D means2D sh colors_precomp opacities scales
       rotations →
     C_rasterize_gaussians args (store w) = (h, inl ex) →
     if debug rs then
       disk_fault w = None →
       run.2 = inl ex
       ∧ (∃ snap, files run.1 = <[snapshot_fw := snap]> (files w)
                  ∧ Forall2 (host_copy_of (store w)) args snap)
       ∧ stdout run.1 = stdout w ++ [msg_fw]
     else
       run.2 = inl ex ∧ files run.1 = files w ∧ stdout run.1 = stdout w)
  ∧ (∀ rs n colors_precomp means3D scales rotations cov3Ds_precomp radii sh
       geomBuffer binningBuffer imgBuffer camerapos camerarot depth
       grad_out_color grad_out_radii grad_out_depth w h ex,
       let args := backward_args rs n colors_precomp means3D scales rotations
                     cov3Ds_precomp radii sh geomBuffer binningBuffer imgBuffer
                     camerapos grad_out_color grad_out_depth in
       let run :=
         backward C_rasterize_gaussians_backward
           (saved rs n colors_precomp means3D scales rotations cov3Ds_precomp radii
              sh geomBuffer binningBuffer imgBuffer camerapos camerarot depth)
           grad_out_color grad_out_radii grad_out_depth w in
       C_rasterize_gaussians_backward args (store w) = (h, inl ex) →
       if debug rs then
         disk_fault w = None →
         run.2 = inl ex
         ∧ (∃ snap, files run.1 = <[snapshot_bw := snap]> (files w)
                    ∧ Forall2 (host_copy_of (store w)) args snap)
         ∧ stdout run.1 = stdout w ++ [msg_bw]
       else
         run.2 = inl ex ∧ files run.1 = files w ∧ stdout run.1 = stdout w).
Proof.
  split.
  - intros ctx means3D means2D sh colors_precomp opacities scales rotations
      cov3Ds_precomp camerapos camerarot rs w h ex args run Hok Hnative. subst run.
    erewrite forward_native_raises; [|exact Hok|exact Hnative].
    fold args. cbv zeta.
    destruct (debug rs); [|auto].
    intros ->. simpl. split; [reflexivity|]. split; [|reflexivity].
    eexists. split; [reflexivity|]. apply cpu_deep_copy_is_host_copy.
  - intros rs n colors_precomp means3D scales rotations cov3Ds_precomp radii sh
      geomBuffer binningBuffer imgBuffer camerapos camerarot depth gc gr gd w h ex
      args run Hnative. subst run.
    rewrite (backward_native_raises _ _ _ _ _ _ _ _ _ _ _ _ _ _ _ _ gr _ _ _ _ Hnative).
    fold args. cbv zeta.
    destruct (debug rs); [|auto].
    intros ->. simpl. split; [reflexivity|]. split; [|reflexivity].
    eexists. split; [reflexivity|]. apply cpu_deep_copy_is_host_copy.
Qed.

(** C5 (amended). In debug mode the write of the snapshot is not guarded:
    when the native call of a pass raises [ex] (in forward, after the
    decorator has accepted the call), the caller receives [ex] if the
    snapshot was written, and the error of the write itself if writing the
    snapshot failed. *)
Theorem snapshot_failure_is_raised :
  (∀ ctx means3D means2D sh colors_precomp opacities scales rotations
     cov3Ds_precomp camerapos camerarot rs w h ex,
     debug rs = true →
     forward_accepts (store w) means3D means2D sh colors_precomp opacities scales
       rotations →
     C_rasterize_gaussians
         (forward_args means3D sh colors_precomp opacities scales rotations
            cov3Ds_precomp camerapos rs) (store w)
       = (h, inl ex) →
     (forward C_rasterize_gaussians ctx means3D means2D sh colors_precomp
        opacities scales rotations cov3Ds_precomp camerapos camerarot rs w).2
       = inl (match disk_fault w with Some failure => failure | None => ex end))
  ∧ (∀ rs n colors_precomp means3D scales rotations cov3Ds_precomp radii sh
       geomBuffer binningBuffer imgBuffer camerapos camerarot depth
       grad_out_color grad_out_radii grad_out_depth w h ex,
       debug rs = true →
       C_rasterize_gaussians_backward
           (backward_args rs n colors_precomp means3D scales rotations
              cov3Ds_precomp radii sh geomBuffer binningBuffer imgBuffer
              camerapos grad_out_color grad_out_depth) (store w)
         = (h, inl ex) →
       (backward C_rasterize_gaussians_backward
          (saved rs n colors_precomp means3D scales rotations cov3Ds_precomp radii
             sh geomBuffer binningBuffer imgBuffer camerapos camerarot depth)
          grad_out_color grad_out_radii grad_out_depth w).2
         = inl (match disk_fault w with Some failure => failure | None => ex end)).
Proof.
  split.
  - intros ctx means3D means2D sh colors_precomp opacities scales rotations
      cov3Ds_precomp camerapos camerarot rs w h ex Hdebug Hok Hnative.
    erewrite forward_native_raises; [|exact Hok|exact Hnative].
    cbv zeta. rewrite Hdebug. destruct (disk_fault w); reflexivity.
  - intros rs n colors_precomp means3D scales rotations cov3Ds_precomp radii sh
      geomBuffer binningBuffer imgBuffer camerapos camerarot depth gc gr gd w h ex
      Hdebug Hnative.
    rewrite (backward_native_raises _ _ _ _ _ _ _ _ _ _ _ _ _ _ _ _ gr _ _ _ _ Hnative).
    cbv zeta. rewrite Hdebug. destruct (disk_fault w); reflexivity.
Qed.

(** C4 (amended). Provided the result of the native rasterizer does not
    depend on the debug flag it receives as last argument, running forward
    with debug enabled and with debug disabled, all else equal, gives the
    same outcome: both raise, or both return the same image, radii and depth
    tensors with the same contents, in the same tensor store. *)
Theorem debug_flag_transparent ctx means3D means2D sh colors_precomp opacities
    scales rotations cov3Ds_precomp camerapos camerarot rs w :
  (∀ pre b b' h,
     C_rasterize_gaussians (pre ++ [VBool b]) h
       = C_rasterize_gaussians (pre ++ [VBool b']) h) →
  let run_on :=
    forward C_rasterize_gaussians ctx means3D means2D sh colors_precomp opacities
      scales rotations cov3Ds_precomp camerapos camerarot (replace_debug true rs) w in
  let run_off :=
    forward C_rasterize_gaussians ctx means3D means2D sh colors_precomp opacities
      scales rotations cov3Ds_precomp camerapos camerarot (replace_debug false rs) w in
  outputs run_on = outputs run_off
  ∧ rendered run_on = rendered run_off
  ∧ store run_on.1 = store run_off.1.
Proof.
  intros Hflag run_on run_off.
  destruct (first_violation
              (operator_annotations (store w !!! means3D) (store w !!! means2D)
                 (store w !!! sh) (store w !!! colors_precomp)
                 (store w !!! opacities) (store w !!! scales)
                 (store w !!! rotations))) as [name|] eqn:Hcheck.
  { subst run_on run_off. erewrite !forward_rejected by exact Hcheck. auto. }
  set (pre :=
    [ VTensor (bg rs); VTensor means3D; VTensor colors_precomp; VTensor opacities;
      VTensor scales; VTensor rotations; VFloat (scale_modifier rs);
      VFloat (cov_offset rs); VTensor cov3Ds_precomp; VTensor (viewmatrix rs);
      VTensor (projmatrix rs); VFloat (tanfovx rs); VFloat (tanfovy rs);
      VInt (image_height rs); VInt (image_width rs); VTensor sh;
      VInt (sh_degree rs); VTensor camerapos; VBool (prefiltered rs) ]).
  destruct (C_rasterize_gaussians (pre ++ [VBool true]) (store w))
    as [h [ex|out]] eqn:Hon;
    pose proof Hon as Hoff; rewrite (Hflag pre true false) in Hoff.
  - subst run_on run_off.
    rewrite (forward_native_raises ctx means3D means2D sh colors_precomp opacities
               scales rotations cov3Ds_precomp camerapos camerarot
               (replace_debug true rs) w h ex Hcheck Hon).
    rewrite (forward_native_raises ctx means3D means2D sh colors_precomp opacities
               scales rotations cov3Ds_precomp camerapos camerarot
               (replace_debug false rs) w h ex Hcheck Hoff).
    simpl. destruct (disk_fault w); auto.
  - destruct out as [[[[[[n color] radii] geom] binning] img] depth].
    subst run_on run_off.
    rewrite (forward_native_returns ctx means3D means2D sh colors_precomp opacities
               scales rotations cov3Ds_precomp camerapos camerarot
               (replace_debug true rs) w h n color radii geom binning img depth
               Hcheck Hon).
    rewrite (forward_native_returns ctx means3D means2D sh colors_precomp opacities
               scales rotations cov3Ds_precomp camerapos camerarot
               (replace_debug false rs) w h n color radii geom binning img depth
               Hcheck Hoff).
    auto.
Qed.

(** *** The facade *)

(** A call that the decorator of the facade rejects. *)
Lemma facade_rejected self means3D means2D opacities
    (shs colors_precomp scales rotations cov3D_precomp camerapos camerarot :
       option Tensor) w name :
  first_violation
    (facade_annotations (store w !!! means3D) (store w !!! means2D)
       (store w !!! opacities)) = Some name →
  GaussianRasterizer_forward C_rasterize_gaussians self means3D means2D opacities
      shs colors_precomp scales rotations cov3D_precomp camerapos camerarot w
    = (w, inl (TypeError name)).
Proof.
  intros Hbad. unfold GaussianRasterizer_forward.
  unfold mbind at 1; unfold M_bind at 1.
  rewrite typechecked_rejects with (name := name) by exact Hbad. reflexivity.
Qed.

(** C2 (amended). A call of [GaussianRasterizer.forward] with both of [shs]
    and [colors_precomp] or neither of them, or with the scale/rotation pair
    together with [cov3D_precomp], or with no complete scale/rotation pair
    and no [cov3D_precomp], raises an error and leaves the world as it was:
    no native call has been made. When [means3D], [means2D] and [opacities]
    fit the annotations of the facade, the error is one of the two
    input-contract violations; otherwise it is the [TypeError] of the
    decorator. *)
Theorem exactly_one_of_validation self means3D means2D opacities
    (shs colors_precomp scales rotations cov3D_precomp camerapos camerarot :
       option Tensor) w :
  (shs ≠ None ∧ colors_precomp ≠ None) ∨ (shs = None ∧ colors_precomp = None)
  ∨ (scales ≠ None ∧ rotations ≠ None ∧ cov3D_precomp ≠ None)
  ∨ ((scales = None ∨ rotations = None) ∧ cov3D_precomp = None) →
  let run :=
    GaussianRasterizer_forward C_rasterize_gaussians self means3D means2D opacities
      shs colors_precomp scales rotations cov3D_precomp camerapos camerarot w in
  ∃ ex, run = (w, inl ex)
        ∧ native_trace run.1 = native_trace w
        ∧ (facade_accepts (store w) means3D means2D opacities →
           ex = color_contract_violation ∨ ex = covariance_contract_violation)
        ∧ (∀ name,
             first_violation
               (facade_annotations (store w !!! means3D) (store w !!! means2D)
                  (store w !!! opacities)) = Some name →
             ex = TypeError name).
Proof.
  intros Hbad run.
  assert (Hcase :
    ∃ ex, run = (w, inl ex)
          ∧ (facade_accepts (store w) means3D means2D opacities →
             ex = color_contract_violation ∨ ex = covariance_contract_violation)
          ∧ (∀ name,
               first_violation
                 (facade_annotations (store w !!! means3D) (store w !!! means2D)
                    (store w !!! opacities)) = Some name →
               ex = TypeError name)).
  { subst run. unfold facade_accepts.
    destruct (first_violation
                (facade_annotations (store w !!! means3D) (store w !!! means2D)
                   (store w !!! opacities))) as [name|] eqn:Hcheck.
    - erewrite facade_rejected by exact Hcheck. eexists. split; [reflexivity|].
      split; [discriminate|]. intros name' [= <-]. reflexivity.
    - unfold GaussianRasterizer_forward. pass_check Hcheck.
      destruct shs, colors_precomp, scales, rotations, cov3D_precomp; simpl;
        first
          [ eexists; split; [reflexivity|]; split; [auto | discriminate]
          | exfalso;
            destruct Hbad as [[? ?]|[[? ?]|[(? & ? & ?)|[[?|?] ?]]]]; congruence ]. }
  destruct Hcase as (ex & Hrun & Hex & Htype). exists ex. rewrite Hrun. auto.
Qed.

Lemma or_empty_spec (given : option Tensor) (w : World) :
  ∃ t w', or_empty given w = (w', inr t)
          ∧ given_or_sentinel w w' given t ∧ allocated_sentinels w w'.
Proof.
  destruct given as [x|].
  - exists x, w. repeat split; try reflexivity. exists 0. simpl. by rewrite app_nil_r.
  - eexists _, _. split; [reflexivity|]. split; [split|].
    + reflexivity.
    + cbn [store with_store]. by apply list_lookup_middle.
    + repeat split; try reflexivity. by exists 1.
Qed.

Lemma allocated_sentinels_trans w1 w2 w3 :
  allocated_sentinels w1 w2 → allocated_sentinels w2 w3 → allocated_sentinels w1 w3.
Proof.
  intros ([k1 Hs1] & ? & ? & ? & ?) ([k2 Hs2] & ? & ? & ? & ?).
  repeat split; try congruence.
  exists (k1 + k2). by rewrite Hs2, Hs1, replicate_add, app_assoc.
Qed.

Lemma given_or_sentinel_mono w0 w1 w2 w3 given t :
  allocated_sentinels w0 w1 → given_or_sentinel w1 w2 given t →
  allocated_sentinels w2 w3 → given_or_sentinel w0 w3 given t.
Proof.
  intros ([k1 Hs1] & _) Hg ([k2 Hs2] & _). destruct given as [x|]; simpl in *; [done|].
  destruct Hg as [Hle Hlook]. split.
  - rewrite Hs1, length_app in Hle. lia.
  - rewrite Hs2. by apply lookup_app_l_Some.
Qed.

Lemma allocated_sentinels_refl w : allocated_sentinels w w.
Proof. repeat split. exists 0. simpl. by rewrite app_nil_r. Qed.

Lemma color_check_passes (shs colors_precomp : option Tensor) :
  (shs ≠ None ∧ colors_precomp = None) ∨ (shs = None ∧ colors_precomp ≠ None) →
  (is_None shs && is_None colors_precomp)
  || (negb (is_None shs) && negb (is_None colors_precomp)) = false.
Proof. destruct shs, colors_precomp; simpl; intros [[? ?]|[? ?]]; congruence. Qed.

Lemma covariance_check_passes (scales rotations cov3D_precomp : option Tensor) :
  (scales ≠ None ∧ rotations ≠ None ∧ cov3D_precomp = None)
  ∨ (scales = None ∧ rotations = None ∧ cov3D_precomp ≠ None) →
  ((is_None scales || is_None rotations) && is_None cov3D_precomp)
  || ((negb (is_None scales) || negb (is_None rotations))
      && negb (is_None cov3D_precomp)) = false.
Proof.
  destruct scales, rotations, cov3D_precomp; simpl;
    intros [(? & ? & ?)|(? & ? & ?)]; congruence.
Qed.

(** C9. A call of [GaussianRasterizer.forward] that passes validation and
    is not turned away by the decorator of the facade delegates to
    [rasterize_gaussians] with a tensor for each of [shs], [colors_precomp],
    [scales], [rotations], [cov3D_precomp], [camerapos] and [camerarot]: the
    given one, or, where the argument was omitted, a newly allocated empty
    tensor. At the time of the delegation nothing but these allocations has
    happened. A call that the decorator turns away raises its [TypeError]
    and delegates nothing. *)
Theorem sentinels_for_omitted_optionals self means3D means2D opacities
    (shs colors_precomp scales rotations cov3D_precomp camerapos camerarot :
       option Tensor) w :
  (shs ≠ None ∧ colors_precomp = None) ∨ (shs = None ∧ colors_precomp ≠ None) →
  (scales ≠ None ∧ rotations ≠ None ∧ cov3D_precomp = None)
  ∨ (scales = None ∧ rotations = None ∧ cov3D_precomp ≠ None) →
  let run :=
    GaussianRasterizer_forward C_rasterize_gaussians self means3D means2D opacities
      shs colors_precomp scales rotations cov3D_precomp camerapos camerarot w in
  match
    first_violation
      (facade_annotations (store w !!! means3D) (store w !!! means2D)
         (store w !!! opacities))
  with
  | Some name => run = (w, inl (TypeError name))
  | None =>
      ∃ w' shs' colors_precomp' scales' rotations' cov3D_precomp' camerapos'
        camerarot',
        run
          = rasterize_gaussians C_rasterize_gaussians means3D means2D shs'
              colors_precomp' opacities scales' rotations' cov3D_precomp'
              camerapos' camerarot' (raster_settings self) w'
        ∧ allocated_sentinels w w'
        ∧ given_or_sentinel w w' shs shs'
        ∧ given_or_sentinel w w' colors_precomp colors_precomp'
        ∧ given_or_sentinel w w' scales scales'
        ∧ given_or_sentinel w w' rotations rotations'
        ∧ given_or_sentinel w w' cov3D_precomp cov3D_precomp'
        ∧ given_or_sentinel w w' camerapos camerapos'
        ∧ given_or_sentinel w w' camerarot camerarot'
  end.
Proof.
  intros Hcolor Hcov run. subst run.
  destruct (first_violation _) as [name|] eqn:Hcheck.
  { apply facade_rejected. exact Hcheck. }
  unfold GaussianRasterizer_forward. pass_check Hcheck.
  rewrite (color_check_passes _ _ Hcolor), (covariance_check_passes _ _ _ Hcov).
  destruct (or_empty_spec shs w) as (t1 & w1 & E1 & G1 & A1).
  destruct (or_empty_spec colors_precomp w1) as (t2 & w2 & E2 & G2 & A2).
  destruct (or_empty_spec scales w2) as (t3 & w3 & E3 & G3 & A3).
  destruct (or_empty_spec rotations w3) as (t4 & w4 & E4 & G4 & A4).
  destruct (or_empty_spec cov3D_precomp w4) as (t5 & w5 & E5 & G5 & A5).
  destruct (or_empty_spec camerapos w5) as (t6 & w6 & E6 & G6 & A6).
  destruct (or_empty_spec camerarot w6) as (t7 & w7 & E7 & G7 & A7).
  pose proof (allocated_sentinels_refl w7) as A77.
  pose proof (allocated_sentinels_trans _ _ _ A7 A77) as A67.
  pose proof (allocated_sentinels_trans _ _ _ A6 A67) as A57.
  pose proof (allocated_sentinels_trans _ _ _ A5 A57) as A47.
  pose proof (allocated_sentinels_trans _ _ _ A4 A47) as A37.
  pose proof (allocated_sentinels_trans _ _ _ A3 A37) as A27.
  pose proof (allocated_sentinels_trans _ _ _ A2 A27) as A17.
  pose proof (allocated_sentinels_trans _ _ _ A1 A2) as A02.
  pose proof (allocated_sentinels_trans _ _ _ A02 A3) as A03.
  pose proof (allocated_sentinels_trans _ _ _ A03 A4) as A04.
  pose proof (allocated_sentinels_trans _ _ _ A04 A5) as A05.
  pose proof (allocated_sentinels_trans _ _ _ A05 A6) as A06.
  exists w7, t1, t2, t3, t4, t5, t6, t7. split.
  { unfold mbind, M_bind.
    rewrite E1; cbv beta iota. rewrite E2; cbv beta iota.
    rewrite E3; cbv beta iota. rewrite E4; cbv beta iota.
    rewrite E5; cbv beta iota. rewrite E6; cbv beta iota.
    rewrite E7; cbv beta iota. reflexivity. }
  split; [exact (allocated_sentinels_trans _ _ _ A1 A17)|].
  pose proof (allocated_sentinels_refl w) as A00.
  repeat split;
    eauto using given_or_sentinel_mono.
Qed.

(** C10 (amended). A call of [GaussianRasterizer.forward] whose [means3D],
    [means2D] and [opacities] fit the annotations of the facade, and that
    provides exactly one of [shs] and [colors_precomp] and exactly one of
    [scales] and [rotations], raises the covariance input-contract violation
    whether or not [cov3D_precomp] is given, and leaves the world as it
    was. *)
Theorem partial_scale_rotation_rejected self means3D means2D opacities
    (shs colors_precomp scales rotations cov3D_precomp camerapos camerarot :
       option Tensor) w :
  facade_accepts (store w) means3D means2D opacities →
  (shs ≠ None ∧ colors_precomp = None) ∨ (shs = None ∧ colors_precomp ≠ None) →
  (scales ≠ None ∧ rotations = None) ∨ (scales = None ∧ rotations ≠ None) →
  GaussianRasterizer_forward C_rasterize_gaussians self means3D means2D opacities
      shs colors_precomp scales rotations cov3D_precomp camerapos camerarot w
    = (w, inl covariance_contract_violation).
Proof.
  intros Hok Hcolor Hpartial. unfold GaussianRasterizer_forward. pass_check Hok.
  rewrite (color_check_passes _ _ Hcolor).
  destruct scales, rotations, cov3D_precomp; simpl;
    first [ reflexivity | exfalso; destruct Hpartial as [[? ?]|[? ?]]; congruence ].
Qed.

End BridgeProperties.

(** ** Concrete runs *)

(** The forward pass over the scene: the recorded call and the context
    kept; and the same pass with the view matrix in the place of [means3D],
    which the decorator rejects. *)
Lemma forward_native_call_witness :
  let run :=
    forward Scene.rasterizer new_ctx 3 4 6 15 5 7 8 16 9 10 (Scene.settings false)
      (Scene.world None) in
  forward Scene.rasterizer new_ctx 1 4 6 15 5 7 8 16 9 10 (Scene.settings false)
      (Scene.world None)
    = (Scene.world None, inl (TypeError "means3D"))
  ∧ native_trace run.1
    = [ (E_rasterize_gaussians,
         [ VTensor 0; VTensor 3; VTensor 15; VTensor 5; VTensor 7; VTensor 8;
           VFloat Scene.one; VFloat Scene.one; VTensor 16; VTensor 1; VTensor 2;
           VFloat Scene.one; VFloat Scene.one; VInt 1; VInt 1; VTensor 6; VInt 0;
           VTensor 9; VBool false; VBool false ]) ]
  ∧ run.2 = inr (Scene.kept false, (17, 18, 22)).
Proof.
  pose proof (forward_native_call Scene.rasterizer new_ctx 3 4 6 15 5 7 8 16 9 10
                (Scene.settings false) (Scene.world None)) as [Htrace Hreturns].
  split; [|split].
  - exact (forward_native_call Scene.rasterizer new_ctx 1 4 6 15 5 7 8 16 9 10
             (Scene.settings false) (Scene.world None)).
  - exact Htrace.
  - exact (Hreturns _ 1%Z 17 18 19 20 21 22 eq_refl).
Defined.

(** The backward pass that follows it: the recorded call and the gradients. *)
Lemma backward_native_call_witness :
  Scene.render false None = (Scene.rendered_world false None, inr (Scene.kept false, (17, 18, 22)))
  ∧ let run :=
      backward Scene.differentiator (Scene.kept false) 11 12 13
        (Scene.rendered_world false None) in
    last (native_trace run.1)
      = Some (E_rasterize_gaussians_backward,
              [ VTensor 0; VTensor 3; VTensor 18; VTensor 15; VTensor 7; VTensor 8;
                VFloat Scene.one; VFloat Scene.one; VTensor 16; VTensor 1;
                VTensor 2; VFloat Scene.one; VFloat Scene.one; VTensor 11;
                VTensor 13; VTensor 6; VInt 0; VTensor 9; VTensor 19; VInt 1;
                VTensor 20; VTensor 21; VBool false ])
    ∧ run.2
      = inr [ VTensor 26; VTensor 23; VTensor 28; VTensor 24; VTensor 25;
              VTensor 29; VTensor 30; VTensor 27; VNone; VTensor 31; VNone ].
Proof.
  assert (Hfw : Scene.render false None
                = (Scene.rendered_world false None, inr (Scene.kept false, (17, 18, 22))))
    by reflexivity.
  split; [exact Hfw|].
  destruct (backward_native_call Scene.rasterizer Scene.differentiator new_ctx
              3 4 6 15 5 7 8 16 9 10 (Scene.settings false) (Scene.world None)
              (Scene.rendered_world false None) (Scene.kept false) 17 18 22 Hfw)
    as (h0 & n & geom & binning & img & Hnative & Hbw).
  vm_compute in Hnative. injection Hnative as <- <- <- <- <-.
  destruct (Hbw 11 12 13 (Scene.rendered_world false None)) as [Htrace Hreturns].
  split.
  - rewrite Htrace. apply last_snoc.
  - exact (Hreturns _ 23 24 25 26 27 28 29 30 31 eq_refl).
Defined.

(** The gradient tuple of that backward pass, slot by slot. *)
Lemma backward_gradient_tuple_witness :
  Scene.render false None
    = (Scene.rendered_world false None, inr (Scene.kept false, (17, 18, 22)))
  ∧ ∃ grads,
      (backward Scene.differentiator (Scene.kept false) 11 12 13
         (Scene.rendered_world false None)).2 = inr grads
      ∧ length grads = 11
      ∧ grads !! 8 = Some VNone
      ∧ grads !! 10 = Some VNone
      ∧ grads !! 1 = Some (VTensor 23).
Proof.
  assert (Hfw : Scene.render false None
                = (Scene.rendered_world false None, inr (Scene.kept false, (17, 18, 22))))
    by reflexivity.
  split; [exact Hfw|].
  destruct (backward_gradient_tuple Scene.rasterizer Scene.differentiator new_ctx
              3 4 6 15 5 7 8 16 9 10 (Scene.settings false) (Scene.world None)
              (Scene.rendered_world false None) (Scene.kept false) 17 18 22 Hfw
              11 12 13 (Scene.rendered_world false None))
    as (args & _ & Hreturns).
  destruct (Hreturns _ 23 24 25 26 27 28 29 30 31 eq_refl)
    as (grads & Hrun & _ & Hlen & Hslots & Hmeans2D).
  exists grads. split; [exact Hrun|]. split; [exact Hlen|].
  split; [exact (Hslots 8 "camerapos" eq_refl)|].
  split; [exact (Hslots 10 "raster_settings" eq_refl)|].
  exact (Hmeans2D 1 eq_refl).
Defined.

(** C1, as stated, fails: after a forward pass over the scene, the backward
    pass returns in the position of [means2D] a tensor of three elements,
    which is neither [None] nor empty. *)
Lemma means2D_gradient_is_not_a_sentinel :
  Scene.render false None
    = (Scene.rendered_world false None, inr (Scene.kept false, (17, 18, 22)))
  ∧ forward_inputs !! 1 = Some "means2D"
  ∧ ∃ w grads g,
      backward Scene.differentiator (Scene.kept false) 11 12 13
        (Scene.rendered_world false None) = (w, inr grads)
      ∧ grads !! 1 = Some g
      ∧ is_sentinel (store w) g = false.
Proof.
  split; [reflexivity|]. split; [reflexivity|].
  eexists _, _, _. split; [vm_compute; reflexivity|].
  split; reflexivity.
Qed.

(** Neither [shs] nor [colors_precomp], with well-shaped tensors: the call
    is refused with an input-contract violation. *)
Lemma exactly_one_of_validation_witness :
  ((None : option Tensor) = None ∧ (None : option Tensor) = None)
  ∧ facade_accepts Scene.tensors 3 4 5
  ∧ ∃ ex,
      GaussianRasterizer_forward Scene.rasterizer Scene.rasterizer_module 3 4 5
        None None (Some 7) (Some 8) None None None (Scene.world None)
        = (Scene.world None, inl ex)
      ∧ (ex = color_contract_violation ∨ ex = covariance_contract_violation).
Proof.
  split; [split; reflexivity|]. split; [reflexivity|].
  destruct (exactly_one_of_validation Scene.rasterizer Scene.rasterizer_module 3 4 5
              None None (Some 7) (Some 8) None None None (Scene.world None)
              (or_intror (or_introl (conj eq_refl eq_refl))))
    as (ex & Hrun & _ & Hex & _).
  exists ex. split; [exact Hrun | exact (Hex eq_refl)].
Defined.

(** C2, as stated, fails: with neither [shs] nor [colors_precomp] and the
    4x4 view matrix in the place of [means3D], the error raised is the
    [TypeError] of the decorator, which is neither of the two input-contract
    violations. *)
Lemma ill_shaped_means3D_raises_TypeError :
  shape (Scene.tensors !!! 1) = [4; 4]
  ∧ GaussianRasterizer_forward Scene.rasterizer Scene.rasterizer_module 1 4 5
        None None (Some 7) (Some 8) None None None (Scene.world None)
      = (Scene.world None, inl (TypeError "means3D"))
  ∧ TypeError "means3D" ≠ color_contract_violation
  ∧ TypeError "means3D" ≠ covariance_contract_violation.
Proof.
  split; [reflexivity|]. split; [reflexivity|]. split; discriminate.
Qed.

(** A forward pass in debug mode whose native call fails, on a healthy disk. *)
Lemma snapshot_on_native_failure_witness :
  let args := forward_args 3 6 15 5 7 8 16 9 (Scene.settings true) in
  let run :=
    forward Scene.corrupt_then_fail new_ctx 3 4 6 15 5 7 8 16 9 10
      (Scene.settings true) (Scene.world None) in
  (Scene.corrupt_then_fail args Scene.tensors : Store * (Exn + FwOut)).2
    = inl Scene.cuda_error
  ∧ run.2 = inl Scene.cuda_error
  ∧ (∃ snap, files run.1 = <[snapshot_fw := snap]> ∅
             ∧ Forall2 (host_copy_of Scene.tensors) args snap)
  ∧ stdout run.1 = [msg_fw].
Proof.
  split; [reflexivity|].
  exact (proj1 (snapshot_on_native_failure Scene.corrupt_then_fail
                  Scene.corrupt_then_fail)
           new_ctx 3 4 6 15 5 7 8 16 9 10 (Scene.settings true) (Scene.world None)
           _ Scene.cuda_error eq_refl eq_refl eq_refl).
Defined.

(** The snapshot holds [means3D] as it was before the native code overwrote
    it. *)
Example snapshot_predates_corruption :
  let run :=
    forward Scene.corrupt_then_fail new_ctx 3 4 6 15 5 7 8 16 9 10
      (Scene.settings true) (Scene.world None) in
  storage (store run.1 !!! 3) = [666; 666; 666]%Z
  ∧ ∃ snap, files run.1 !! snapshot_fw = Some snap
            ∧ snap !! 1 = Some (HostCopy (mkTensorData CPU Float32 [1; 3] [10; 20; 30]%Z)).
Proof.
  split; [reflexivity|]. eexists. split; vm_compute; reflexivity.
Qed.

(** C3, as stated, fails: with debug enabled and a disk that refuses the
    write, a forward pass whose native call raises persists no snapshot,
    prints no message and does not raise the error of the native call. *)
Lemma no_snapshot_when_write_fails :
  let args := forward_args 3 6 15 5 7 8 16 9 (Scene.settings true) in
  let run :=
    forward Scene.corrupt_then_fail new_ctx 3 4 6 15 5 7 8 16 9 10
      (Scene.settings true) (Scene.world (Some Scene.disk_full)) in
  debug (Scene.settings true) = true
  ∧ (Scene.corrupt_then_fail args Scene.tensors : Store * (Exn + FwOut)).2
    = inl Scene.cuda_error
  ∧ files run.1 !! snapshot_fw = None
  ∧ stdout run.1 = []
  ∧ run.2 = inl Scene.disk_full
  ∧ run.2 ≠ inl Scene.cuda_error.
Proof.
  repeat split; try reflexivity. vm_compute. discriminate.
Qed.

(** A rasterizer that ignores its arguments renders the same with and without
    debug. *)
Lemma debug_flag_transparent_witness :
  let run_on :=
    forward Scene.rasterizer new_ctx 3 4 6 15 5 7 8 16 9 10
      (replace_debug true (Scene.settings false)) (Scene.world None) in
  let run_off :=
    forward Scene.rasterizer new_ctx 3 4 6 15 5 7 8 16 9 10
      (replace_debug false (Scene.settings false)) (Scene.world None) in
  (∀ pre b b' h,
     Scene.rasterizer (pre ++ [VBool b]) h = Scene.rasterizer (pre ++ [VBool b']) h)
  ∧ outputs run_on = outputs run_off
  ∧ rendered run_on = rendered run_off
  ∧ store run_on.1 = store run_off.1.
Proof.
  split; [reflexivity|].
  exact (debug_flag_transparent Scene.rasterizer new_ctx 3 4 6 15 5 7 8 16 9 10
           (Scene.settings false) (Scene.world None) (λ pre b b' h, eq_refl)).
Defined.

(** C4, as stated, fails: a native rasterizer may render differently when
    it is passed debug = true, and then the two runs differ in the image. *)
Lemma debug_flag_changes_image :
  let run_on :=
    forward Scene.flag_sensitive_rasterizer new_ctx 3 4 6 15 5 7 8 16 9 10
      (replace_debug true (Scene.settings false)) (Scene.world None) in
  let run_off :=
    forward Scene.flag_sensitive_rasterizer new_ctx 3 4 6 15 5 7 8 16 9 10
      (replace_debug false (Scene.settings false)) (Scene.world None) in
  outputs run_on = Some (17, 18, 22)
  ∧ outputs run_off = Some (17, 18, 22)
  ∧ storage (store run_on.1 !!! 17) = [41; 50; 60]%Z
  ∧ storage (store run_off.1 !!! 17) = [40; 50; 60]%Z
  ∧ rendered run_on ≠ rendered run_off.
Proof.
  repeat split; try reflexivity. vm_compute. discriminate.
Qed.

(** A backward pass in debug mode whose native call fails, on a healthy disk. *)
Lemma snapshot_failure_is_raised_witness :
  let args := backward_args (Scene.settings true) 1 15 3 7 8 16 18 6 19 20 21 9 11 13 in
  let w := Scene.rendered_world true None in
  debug (Scene.settings true) = true
  ∧ (Scene.corrupt_then_fail args (store w) : Store * (Exn + BwOut)).2
    = inl Scene.cuda_error
  ∧ (backward Scene.corrupt_then_fail (Scene.kept true) 11 12 13 w).2
    = inl Scene.cuda_error.
Proof.
  split; [reflexivity|]. split; [reflexivity|].
  exact (proj2 (snapshot_failure_is_raised Scene.corrupt_then_fail
                  Scene.corrupt_then_fail)
           (Scene.settings true) 1%Z 15 3 7 8 16 18 6 19 20 21 9 10 22 11 12 13
           (Scene.rendered_world true None) _ Scene.cuda_error eq_refl eq_refl).
Defined.

(** C5, as stated, fails: in a backward pass with debug enabled whose native
    call raises a CUDA error while the disk refuses the write, the caller
    receives the error of the write, not the CUDA error. *)
Lemma backward_raises_the_write_error :
  let args := backward_args (Scene.settings true) 1 15 3 7 8 16 18 6 19 20 21 9 11 13 in
  let w := Scene.rendered_world true (Some Scene.disk_full) in
  let run := backward Scene.corrupt_then_fail (Scene.kept true) 11 12 13 w in
  Scene.render true (Some Scene.disk_full) = (w, inr (Scene.kept true, (17, 18, 22)))
  ∧ (Scene.corrupt_then_fail args (store w) : Store * (Exn + BwOut)).2
    = inl Scene.cuda_error
  ∧ run.2 = inl Scene.disk_full
  ∧ run.2 ≠ inl Scene.cuda_error.
Proof.
  repeat split; try reflexivity. vm_compute. discriminate.
Qed.

(** SH colours, scales, rotations and the camera given: the two omitted
    arguments reach [rasterize_gaussians] as empty tensors. *)
Lemma sentinels_for_omitted_optionals_witness :
  ∃ w' colors_precomp' cov3D_precomp',
    GaussianRasterizer_forward Scene.rasterizer Scene.rasterizer_module 3 4 5
        (Some 6) None (Some 7) (Some 8) None (Some 9) (Some 10) (Scene.world None)
      = rasterize_gaussians Scene.rasterizer 3 4 6 colors_precomp' 5 7 8
          cov3D_precomp' 9 10 (Scene.settings false) w'
    ∧ native_trace w' = []
    ∧ store w' !! colors_precomp' = Some empty_data
    ∧ store w' !! cov3D_precomp' = Some empty_data.
Proof.
  destruct (sentinels_for_omitted_optionals Scene.rasterizer Scene.rasterizer_module
              3 4 5 (Some 6) None (Some 7) (Some 8) None (Some 9) (Some 10)
              (Scene.world None))
    as (w' & shs' & cp' & sc' & rot' & cov' & cpos' & crot' & Hrun & Halloc
        & Gshs & Gcp & Gsc & Grot & Gcov & Gcpos & Gcrot).
  - left. split; [discriminate | reflexivity].
  - left. split; [discriminate|]. split; [discriminate | reflexivity].
  - simpl in Gshs, Gsc, Grot, Gcpos, Gcrot. subst shs' sc' rot' cpos' crot'.
    exists w', cp', cov'.
    split; [exact Hrun|].
    split; [exact (proj2 (proj2 (proj2 (proj2 Halloc))))|].
    split; [exact (proj2 Gcp) | exact (proj2 Gcov)].
Defined.

(** [scales] without [rotations], with and without [cov3D_precomp]. *)
Lemma partial_scale_rotation_rejected_witness :
  GaussianRasterizer_forward Scene.rasterizer Scene.rasterizer_module 3 4 5
      (Some 6) None (Some 7) None None None None (Scene.world None)
    = (Scene.world None, inl covariance_contract_violation)
  ∧ GaussianRasterizer_forward Scene.rasterizer Scene.rasterizer_module 3 4 5
        (Some 6) None (Some 7) None (Some 16) None None (Scene.world None)
      = (Scene.world None, inl covariance_contract_violation).
Proof.
  split;
    apply (partial_scale_rotation_rejected Scene.rasterizer Scene.rasterizer_module
             3 4 5 (Some 6) None (Some 7) None);
    first [ reflexivity | left; split; [discriminate | reflexivity] ].
Defined.

(** C10, as stated, fails: a call that gives [scales] without [rotations]
    and neither [shs] nor [colors_precomp] raises the colour violation, not
    the covariance violation. *)
Lemma partial_pair_without_colour_raises_colour_violation :
  GaussianRasterizer_forward Scene.rasterizer Scene.rasterizer_module 3 4 5
      None None (Some 7) None None None None (Scene.world None)
    = (Scene.world None, inl color_contract_violation)
  ∧ color_contract_violation ≠ covariance_contract_violation.
Proof.
  split; [reflexivity | discriminate].
Qed.

(** Two backward passes that differ in the gradient of radii only. *)
Example radii_gradient_is_ignored :
  backward Scene.differentiator (Scene.kept false) 11 12 13
      (Scene.rendered_world false None)
    = backward Scene.differentiator (Scene.kept false) 11 14 13
        (Scene.rendered_world false None).
Proof. reflexivity. Qed.

(** ** Further properties of the bridge *)

Lemma world_eq (a b : World) :
  store a = store b → files a = files b → disk_fault a = disk_fault b →
  stdout a = stdout b → native_trace a = native_trace b → a = b.
Proof. destruct a, b; simpl; intros; subst; reflexivity. Qed.

(** X2. The copy is independent of the device and of every other tensor:
    two worlds in which the tensors of the tuple have the same dtype, shape
    and elements give the same copy. *)
Theorem cpu_deep_copy_tuple_device_independent (input_tuple : list PyVal)
    (w1 w2 : World) :
  (∀ t, VTensor t ∈ input_tuple →
     dtype (store w1 !!! t) = dtype (store w2 !!! t)
     ∧ shape (store w1 !!! t) = shape (store w2 !!! t)
     ∧ storage (store w1 !!! t) = storage (store w2 !!! t)) →
  (cpu_deep_copy_tuple input_tuple w1).2 = (cpu_deep_copy_tuple input_tuple w2).2.
Proof.
  unfold cpu_deep_copy_tuple. simpl. intros Hsame. f_equal.
  induction input_tuple as [|item rest IH]; [reflexivity|]. simpl. f_equal.
  - destruct item; try reflexivity. simpl. unfold cpu_clone.
    destruct (Hsame t) as (-> & -> & ->); [left|reflexivity].
  - apply IH. intros t Ht. apply Hsame. by right.
Qed.

Section Coverage.

Variable C_rasterize_gaussians : Native FwOut.
Variable C_rasterize_gaussians_backward : Native BwOut.
Variable C_mark_visible : Native Tensor.

(** X3. [markVisible] makes exactly one native call, to [mark_visible] with
    (positions, viewmatrix, projmatrix), and hands back what that call
    returns or raises; whatever the debug flag of the settings, it writes no
    file and prints nothing. *)
Theorem markVisible_never_snapshots self positions w :
  let args :=
    [ VTensor positions; VTensor (viewmatrix (raster_settings self));
      VTensor (projmatrix (raster_settings self)) ] in
  let run := markVisible C_mark_visible self positions w in
  native_trace run.1 = native_trace w ++ [(E_mark_visible, args)]
  ∧ store run.1 = (C_mark_visible args (store w)).1
  ∧ run.2 = (C_mark_visible args (store w)).2
  ∧ files run.1 = files w
  ∧ stdout run.1 = stdout w.
Proof.
  intros args run. subst run. unfold markVisible. fold args. run_M.
  destruct (C_mark_visible args (store w)) as [h [ex|visible]]; simpl; auto.
Qed.

(** X8. A pass whose native call returns (in forward, after the decorator
    has accepted the call) leaves no trace of debug mode: with the flag on
    or off, forward and backward write no file and print nothing, and the
    tensor store is the one the native code left. *)
Theorem success_leaves_no_snapshot :
  (∀ ctx means3D means2D sh colors_precomp opacities scales rotations
     cov3Ds_precomp camerapos camerarot rs w h out,
     let run :=
       forward C_rasterize_gaussians ctx means3D means2D sh colors_precomp
         opacities scales rotations cov3Ds_precomp camerapos camerarot rs w in
     forward_accepts (store w) means3D means2D sh colors_precomp opacities scales
       rotations →
     C_rasterize_gaussians
         (forward_args means3D sh colors_precomp opacities scales rotations
            cov3Ds_precomp camerapos rs) (store w) = (h, inr out) →
     store run.1 = h ∧ files run.1 = files w ∧ stdout run.1 = stdout w)
  ∧ (∀ rs n colors_precomp means3D scales rotations cov3Ds_precomp radii sh
       geomBuffer binningBuffer imgBuffer camerapos camerarot depth
       grad_out_color grad_out_radii grad_out_depth w h out,
       let run :=
         backward C_rasterize_gaussians_backward
           (saved rs n colors_precomp means3D scales rotations cov3Ds_precomp radii
              sh geomBuffer binningBuffer imgBuffer camerapos camerarot depth)
           grad_out_color grad_out_radii grad_out_depth w in
       C_rasterize_gaussians_backward
           (backward_args rs n colors_precomp means3D scales rotations
              cov3Ds_precomp radii sh geomBuffer binningBuffer imgBuffer
              camerapos grad_out_color grad_out_depth) (store w) = (h, inr out) →
       store run.1 = h ∧ files run.1 = files w ∧ stdout run.1 = stdout w).
Proof.
  split.
  - intros ctx means3D means2D sh colors_precomp opacities scales rotations
      cov3Ds_precomp camerapos camerarot rs w h out run Hok Hnative. subst run.
    destruct out as [[[[[[n color] radii] geom] binning] img] depth].
    erewrite forward_native_returns; [|exact Hok|exact Hnative].
    auto.
  - intros rs n colors_precomp means3D scales rotations cov3Ds_precomp radii sh
      geomBuffer binningBuffer imgBuffer camerapos camerarot depth gc gr gd w h out
      run Hnative. subst run.
    destruct out as [[[[[[[[g1 g2] g3] g4] g5] g6] g7] g8] g9].
    erewrite backward_native_returns; [|exact Hnative].
    auto.
Qed.

(** X9. A pass in debug mode whose native call fails (in forward, after
    the decorator has accepted the call), on a disk that takes the write,
    replaces its own snapshot file, whatever that file held, by the copy of
    its arguments, and leaves every other file alone: forward does not touch
    [snapshot_bw.dump] and backward does not touch [snapshot_fw.dump]. *)
Theorem failure_touches_only_its_snapshot :
  (∀ ctx means3D means2D sh colors_precomp opacities scales rotations
     cov3Ds_precomp camerapos camerarot rs w h ex snap,
     let args := forward_args means3D sh colors_precomp opacities scales rotations
                   cov3Ds_precomp camerapos rs in
     let run :=
       forward C_rasterize_gaussians ctx means3D means2D sh colors_precomp
         opacities scales rotations cov3Ds_precomp camerapos camerarot rs w in
     debug rs = true → disk_fault w = None →
     forward_accepts (store w) means3D means2D sh colors_precomp opacities scales
       rotations →
     C_rasterize_gaussians args (store w) = (h, inl ex) →
     cpu_deep_copy_tuple args w = (w, inr snap) →
     files run.1 !! snapshot_fw = Some snap
     ∧ files run.1 !! snapshot_bw = files w !! snapshot_bw
     ∧ ∀ name, name ≠ snapshot_fw → files run.1 !! name = files w !! name)
  ∧ (∀ rs n colors_precomp means3D scales rotations cov3Ds_precomp radii sh
       geomBuffer binningBuffer imgBuffer camerapos camerarot depth
       grad_out_color grad_out_radii grad_out_depth w h ex snap,
       let args := backward_args rs n colors_precomp means3D scales rotations
                     cov3Ds_precomp radii sh geomBuffer binningBuffer imgBuffer
                     camerapos grad_out_color grad_out_depth in
       let run :=
         backward C_rasterize_gaussians_backward
           (saved rs n colors_precomp means3D scales rotations cov3Ds_precomp radii
              sh geomBuffer binningBuffer imgBuffer camerapos camerarot depth)
           grad_out_color grad_out_radii grad_out_depth w in
       debug rs = true → disk_fault w = None →
       C_rasterize_gaussians_backward args (store w) = (h, inl ex) →
       cpu_deep_copy_tuple args w = (w, inr snap) →
       files run.1 !! snapshot_bw = Some snap
       ∧ files run.1 !! snapshot_fw = files w !! snapshot_fw
       ∧ ∀ name, name ≠ snapshot_bw → files run.1 !! name = files w !! name).
Proof.
  split.
  - intros ctx means3D means2D sh colors_precomp opacities scales rotations
      cov3Ds_precomp camerapos camerarot rs w h ex snap args run Hdebug Hdisk
      Hok Hnative Hsnap. subst run.
    erewrite forward_native_raises; [|exact Hok|exact Hnative].
    fold args. cbv zeta. rewrite Hdebug, Hdisk.
    clearbody args. unfold cpu_deep_copy_tuple in Hsnap. injection Hsnap as <-.
    simpl.
    split; [apply lookup_insert_eq|].
    split; [by apply lookup_insert_ne|].
    intros name Hname. by apply lookup_insert_ne.
  - intros rs n colors_precomp means3D scales rotations cov3Ds_precomp radii sh
      geomBuffer binningBuffer imgBuffer camerapos camerarot depth gc gr gd w h ex
      snap args run Hdebug Hdisk Hnative Hsnap. subst run.
    erewrite backward_native_raises; [|exact Hnative].
    fold args. cbv zeta. rewrite Hdebug, Hdisk.
    clearbody args. unfold cpu_deep_copy_tuple in Hsnap. injection Hsnap as <-.
    simpl.
    split; [apply lookup_insert_eq|].
    split; [by apply lookup_insert_ne|].
    intros name Hname. by apply lookup_insert_ne.
Qed.



End Coverage.

(** *** The facade, end to end *)

Lemma grow_grow k1 k2 w : grow k2 (grow k1 w) = grow (k1 + k2) w.
Proof. unfold grow, with_store. simpl. by rewrite replicate_add, app_assoc. Qed.

Lemma grow_0 w : grow 0 w = w.
Proof. apply world_eq; simpl; try reflexivity. apply app_nil_r. Qed.

Lemma or_empty_step (given : option Tensor) (w : World) :
  ∃ t, or_empty given w = (grow (omitted [given]) w, inr t)
       ∧ ∀ rest, slots (length (store w)) (given :: rest)
                 = t :: slots (length (store (grow (omitted [given]) w))) rest.
Proof.
  destruct given as [x|].
  - exists x. change (omitted [Some x]) with 0. rewrite grow_0. split; reflexivity.
  - exists (length (store w)). change (omitted [None]) with 1. split; [reflexivity|].
    intros rest. unfold grow. simpl. by rewrite length_app, Nat.add_1_r.
Qed.

Lemma slots_given n opts i x :
  opts !! i = Some (Some x) → slots n opts !! i = Some x.
Proof.
  revert n i. induction opts as [|o rest IH]; intros n i Hi; [done|].
  destruct i as [|i]; simpl in *.
  - by injection Hi as ->.
  - destruct o; simpl; by apply IH.
Qed.

Lemma slots_omitted n opts i :
  opts !! i = Some None → slots n opts !! i = Some (n + omitted (take i opts)).
Proof.
  revert n i. induction opts as [|o rest IH]; intros n i Hi; [done|].
  destruct i as [|i]; simpl in *.
  - injection Hi as ->. simpl. by rewrite Nat.add_0_r.
  - destruct o; simpl; rewrite (IH _ _ Hi); f_equal; lia.
Qed.

Lemma omitted_take_lt opts i j :
  i < j → opts !! i = Some None → omitted (take i opts) < omitted (take j opts).
Proof.
  revert i j. induction opts as [|o rest IH]; intros i j Hij Hi; [done|].
  destruct j as [|j]; [lia|]. destruct i as [|i]; simpl in *.
  - injection Hi as ->. simpl. lia.
  - assert (omitted (take i rest) < omitted (take j rest)) by (apply IH; [lia|done]).
    destruct o; simpl; lia.
Qed.

Lemma omitted_take_lt_all opts i :
  opts !! i = Some None → omitted (take i opts) < omitted opts.
Proof.
  intros Hi. rewrite <- (firstn_all opts) at 2.
  apply omitted_take_lt; [|done]. by apply lookup_lt_Some in Hi.
Qed.

(** Allocating empty tensors changes no reading of the store: a reference
    beyond the store reads as an empty tensor already. *)
Lemma lookup_total_grow (h : list TensorData) k t :
  (h ++ replicate k empty_data) !!! t = h !!! t.
Proof.
  rewrite !list_lookup_total_alt.
  destruct (decide (t < length h)) as [Hlt|Hge].
  - rewrite lookup_app_l by lia. reflexivity.
  - rewrite lookup_app_r by lia. rewrite (lookup_ge_None_2 h) by lia.
    destruct (replicate k empty_data !! (t - length h)) as [d|] eqn:Hd; [|reflexivity].
    apply lookup_replicate in Hd as [-> _]. reflexivity.
Qed.

(** What the slot of an optional argument holds in the grown store. *)
Lemma slot_content (h : list TensorData) opts i o t :
  opts !! i = Some o → slots (length h) opts !! i = Some t →
  (h ++ replicate (omitted opts) empty_data) !!! t = content h o.
Proof.
  intros Ho Ht. destruct o as [x|]; simpl.
  - rewrite (slots_given _ _ _ _ Ho) in Ht. injection Ht as <-.
    apply lookup_total_grow.
  - rewrite (slots_omitted _ _ _ Ho) in Ht. injection Ht as <-.
    apply list_lookup_total_correct. etrans; [apply lookup_app_r; lia|].
    apply lookup_replicate_2. pose proof (omitted_take_lt_all _ _ Ho). lia.
Qed.

Lemma first_violation_app checks more :
  first_violation (checks ++ more) = None → first_violation checks = None.
Proof.
  induction checks as [|[name ok] rest IH]; simpl; [done|].
  destruct ok; [exact IH | done].
Qed.

(** Finds an annotation in a list of annotations. *)
Ltac in_checks :=
  repeat first [apply list_elem_of_here | apply list_elem_of_further].

(** The annotations of the facade are among those of [rasterize_gaussians]. *)
Lemma rasterize_accepts_facade a b c d e f g h i :
  first_violation (rasterize_gaussians_annotations a b c d e f g h i) = None →
  first_violation (facade_annotations a b e) = None.
Proof.
  rewrite !first_violation_None. intros Hall name ok Hin. apply (Hall name).
  unfold rasterize_gaussians_annotations, operator_annotations, facade_annotations in *.
  simpl in *.
  apply elem_of_cons in Hin as [Heq|Hin]; [rewrite Heq; in_checks|].
  apply elem_of_cons in Hin as [Heq|Hin]; [rewrite Heq; in_checks|].
  apply elem_of_cons in Hin as [Heq|Hin]; [rewrite Heq; in_checks|].
  by apply elem_of_nil in Hin.
Qed.

(** An empty tensor fits none of the annotations of [sh], [scales],
    [rotations], [camerapos] and [camerarot]. *)
Lemma rasterize_accepts_given (h : Store) a b e
    (shs colors_precomp scales rotations camerapos camerarot : option Tensor) :
  first_violation
    (rasterize_gaussians_annotations a b (content h shs) (content h colors_precomp) e
       (content h scales) (content h rotations) (content h camerapos)
       (content h camerarot)) = None →
  shs ≠ None ∧ scales ≠ None ∧ rotations ≠ None ∧ camerapos ≠ None
  ∧ camerarot ≠ None.
Proof.
  rewrite first_violation_None. intros Hall.
  unfold rasterize_gaussians_annotations, operator_annotations in Hall.
  simpl in Hall.
  repeat split; intros ->; simpl in Hall.
  - discriminate (Hall "sh" _ ltac:(in_checks)).
  - pose proof (Hall "scales" _ ltac:(in_checks)) as Hfit.
    apply andb_true_iff in Hfit as [_ Hfit].
    apply bool_decide_eq_true in Hfit. discriminate Hfit.
  - pose proof (Hall "rotations" _ ltac:(in_checks)) as Hfit.
    apply andb_true_iff in Hfit as [_ Hfit].
    apply bool_decide_eq_true in Hfit. discriminate Hfit.
  - pose proof (Hall "camerapos" _ ltac:(in_checks)) as Hfit.
    apply andb_true_iff in Hfit as [_ Hfit].
    apply bool_decide_eq_true in Hfit. discriminate Hfit.
  - pose proof (Hall "camerarot" _ ltac:(in_checks)) as Hfit.
    apply andb_true_iff in Hfit as [_ Hfit].
    apply bool_decide_eq_true in Hfit. discriminate Hfit.
Qed.

(** Decides the two checks on arguments that are known to be given or
    omitted. *)
Ltac check_inputs :=
  unfold one_colour, one_covariance in *;
  first
    [ reflexivity
    | (left + right); repeat split; congruence
    | exfalso;
      repeat match goal with
             | H : _ ∨ _ |- _ => destruct H
             | H : _ ∧ _ |- _ => destruct H
             | H : ¬ _ |- _ => apply H; (left + right); repeat split; congruence
             end;
      congruence ].

Lemma one_colour_dec (shs colors_precomp : option Tensor) :
  one_colour shs colors_precomp ∨ ¬ one_colour shs colors_precomp.
Proof.
  unfold one_colour. destruct shs, colors_precomp;
    first [ left; (left + right); split; congruence
          | right; intros [[? ?]|[? ?]]; congruence ].
Qed.

Lemma one_covariance_dec (scales rotations cov3D_precomp : option Tensor) :
  one_covariance scales rotations cov3D_precomp
  ∨ ¬ one_covariance scales rotations cov3D_precomp.
Proof.
  unfold one_covariance. destruct scales, rotations, cov3D_precomp;
    first [ left; (left + right); repeat split; congruence
          | right; intros [(? & ? & ?)|(? & ? & ?)]; congruence ].
Qed.

Section Facade.

Variable C_rasterize_gaussians : Native FwOut.

(** [rasterize_gaussians] is its decorator followed by forward on a new
    context. *)
Lemma rasterize_gaussians_cases means3D means2D sh colors_precomp opacities
    scales rotations cov3Ds_precomp camerapos camerarot rs w :
  rasterize_gaussians C_rasterize_gaussians means3D means2D sh colors_precomp
      opacities scales rotations cov3Ds_precomp camerapos camerarot rs w
    = match
        first_violation
          (rasterize_gaussians_annotations (store w !!! means3D)
             (store w !!! means2D) (store w !!! sh) (store w !!! colors_precomp)
             (store w !!! opacities) (store w !!! scales) (store w !!! rotations)
             (store w !!! camerapos) (store w !!! camerarot))
      with
      | Some name => (w, inl (TypeError name))
      | None =>
          forward C_rasterize_gaussians new_ctx means3D means2D sh colors_precomp
            opacities scales rotations cov3Ds_precomp camerapos camerarot rs w
      end.
Proof.
  unfold rasterize_gaussians. unfold mbind at 1; unfold M_bind at 1.
  unfold typechecked. destruct (first_violation _); reflexivity.
Qed.


(** A call that passes the decorator of the facade and both checks is
    [rasterize_gaussians] on the slots of its optional arguments, in the
    world grown by the omitted ones. *)
Lemma facade_run self means3D means2D opacities
    (shs colors_precomp scales rotations cov3D_precomp camerapos camerarot :
       option Tensor) w :
  facade_accepts (store w) means3D means2D opacities →
  one_colour shs colors_precomp →
  one_covariance scales rotations cov3D_precomp →
  ∃ t1 t2 t3 t4 t5 t6 t7,
    slots (length (store w))
        [shs; colors_precomp; scales; rotations; cov3D_precomp; camerapos; camerarot]
      = [t1; t2; t3; t4; t5; t6; t7]
    ∧ GaussianRasterizer_forward C_rasterize_gaussians self means3D means2D opacities
          shs colors_precomp scales rotations cov3D_precomp camerapos camerarot w
        = rasterize_gaussians C_rasterize_gaussians means3D means2D t1 t2 opacities
            t3 t4 t5 t6 t7 (raster_settings self)
            (grow (omitted [shs; colors_precomp; scales; rotations; cov3D_precomp;
                            camerapos; camerarot]) w).
Proof.
  intros Hok Hcolor Hcov. unfold GaussianRasterizer_forward. pass_check Hok.
  rewrite (color_check_passes _ _ Hcolor), (covariance_check_passes _ _ _ Hcov).
  destruct (or_empty_step shs w) as (t1 & E1 & S1).
  destruct (or_empty_step colors_precomp (grow (omitted [shs]) w)) as (t2 & E2 & S2).
  rewrite grow_grow in E2, S2.
  destruct (or_empty_step scales (grow (omitted [shs] + omitted [colors_precomp]) w))
    as (t3 & E3 & S3).
  rewrite grow_grow in E3, S3.
  destruct (or_empty_step rotations
              (grow (omitted [shs] + omitted [colors_precomp] + omitted [scales]) w))
    as (t4 & E4 & S4).
  rewrite grow_grow in E4, S4.
  destruct (or_empty_step cov3D_precomp
              (grow (omitted [shs] + omitted [colors_precomp] + omitted [scales]
                     + omitted [rotations]) w))
    as (t5 & E5 & S5).
  rewrite grow_grow in E5, S5.
  destruct (or_empty_step camerapos
              (grow (omitted [shs] + omitted [colors_precomp] + omitted [scales]
                     + omitted [rotations] + omitted [cov3D_precomp]) w))
    as (t6 & E6 & S6).
  rewrite grow_grow in E6, S6.
  destruct (or_empty_step camerarot
              (grow (omitted [shs] + omitted [colors_precomp] + omitted [scales]
                     + omitted [rotations] + omitted [cov3D_precomp]
                     + omitted [camerapos]) w))
    as (t7 & E7 & S7).
  rewrite grow_grow in E7, S7.
  exists t1, t2, t3, t4, t5, t6, t7. split.
  - rewrite S1, S2, S3, S4, S5, S6, S7. reflexivity.
  - unfold mbind, M_bind.
    rewrite E1; cbv beta iota. rewrite E2; cbv beta iota.
    rewrite E3; cbv beta iota. rewrite E4; cbv beta iota.
    rewrite E5; cbv beta iota. rewrite E6; cbv beta iota.
    rewrite E7; cbv beta iota.
    replace (omitted [shs; colors_precomp; scales; rotations; cov3D_precomp;
                      camerapos; camerarot])
      with (omitted [shs] + omitted [colors_precomp] + omitted [scales]
            + omitted [rotations] + omitted [cov3D_precomp] + omitted [camerapos]
            + omitted [camerarot])
      by (clear; destruct shs, colors_precomp, scales, rotations, cov3D_precomp,
            camerapos, camerarot; reflexivity).
    reflexivity.
Qed.

(** What a call that passes the decorator of the facade and both checks
    comes to: the decorator of [rasterize_gaussians] turns it away, or it is
    a forward pass on the slots of the optional arguments, which the
    decorator of forward accepts as well. *)
Lemma facade_delegation self means3D means2D opacities
    (shs colors_precomp scales rotations cov3D_precomp camerapos camerarot :
       option Tensor) w :
  facade_accepts (store w) means3D means2D opacities →
  one_colour shs colors_precomp →
  one_covariance scales rotations cov3D_precomp →
  let opts := [shs; colors_precomp; scales; rotations; cov3D_precomp; camerapos;
               camerarot] in
  let w' := grow (omitted opts) w in
  let run :=
    GaussianRasterizer_forward C_rasterize_gaussians self means3D means2D opacities
      shs colors_precomp scales rotations cov3D_precomp camerapos camerarot w in
  ∃ t1 t2 t3 t4 t5 t6 t7,
    slots (length (store w)) opts = [t1; t2; t3; t4; t5; t6; t7]
    ∧ match
        first_violation
          (delegation_annotations (store w) means3D means2D opacities shs
             colors_precomp scales rotations camerapos camerarot)
      with
      | Some name => run = (w', inl (TypeError name))
      | None =>
          forward_accepts (store w') means3D means2D t1 t2 opacities t3 t4
          ∧ run = forward C_rasterize_gaussians new_ctx means3D means2D t1 t2
                    opacities t3 t4 t5 t6 t7 (raster_settings self) w'
      end.
Proof.
  intros Hok Hcolour Hcov opts w' run.
  destruct (facade_run self means3D means2D opacities shs colors_precomp scales
              rotations cov3D_precomp camerapos camerarot w Hok Hcolour Hcov)
    as (t1 & t2 & t3 & t4 & t5 & t6 & t7 & Hslots & Hrun).
  fold opts in Hslots, Hrun. fold w' in Hrun.
  exists t1, t2, t3, t4, t5, t6, t7. split; [exact Hslots|].
  assert (Hsame :
    rasterize_gaussians_annotations (store w' !!! means3D) (store w' !!! means2D)
      (store w' !!! t1) (store w' !!! t2) (store w' !!! opacities)
      (store w' !!! t3) (store w' !!! t4) (store w' !!! t6) (store w' !!! t7)
    = delegation_annotations (store w) means3D means2D opacities shs colors_precomp
        scales rotations camerapos camerarot).
  { assert (Hgrown : ∀ t, store w' !!! t = store w !!! t)
      by (intros t; apply lookup_total_grow).
    assert (Hslot : ∀ i o t, opts !! i = Some o → [t1; t2; t3; t4; t5; t6; t7] !! i = Some t →
                             store w' !!! t = content (store w) o).
    { intros i o t Ho Ht. apply (slot_content (store w) opts i); [exact Ho|].
      rewrite Hslots. exact Ht. }
    unfold delegation_annotations.
    rewrite (Hslot 0 shs t1 eq_refl eq_refl), (Hslot 1 colors_precomp t2 eq_refl eq_refl),
      (Hslot 2 scales t3 eq_refl eq_refl), (Hslot 3 rotations t4 eq_refl eq_refl),
      (Hslot 5 camerapos t6 eq_refl eq_refl), (Hslot 6 camerarot t7 eq_refl eq_refl).
    rewrite !Hgrown. reflexivity. }
  subst run. rewrite Hrun, rasterize_gaussians_cases, Hsame.
  destruct (first_violation (delegation_annotations _ _ _ _ _ _ _ _ _ _))
    as [name|] eqn:Hcheck; [reflexivity|].
  split; [|reflexivity].
  unfold forward_accepts. rewrite <- Hsame in Hcheck.
  exact (first_violation_app _ _ Hcheck).
Qed.

(** The two checks of the facade, once its decorator has accepted the
    call. *)
Lemma facade_invalid self means3D means2D opacities
    (shs colors_precomp scales rotations cov3D_precomp camerapos camerarot :
       option Tensor) w :
  facade_accepts (store w) means3D means2D opacities →
  let run :=
    GaussianRasterizer_forward C_rasterize_gaussians self means3D means2D opacities
      shs colors_precomp scales rotations cov3D_precomp camerapos camerarot w in
  (¬ one_colour shs colors_precomp → run = (w, inl color_contract_violation))
  ∧ (one_colour shs colors_precomp →
     ¬ one_covariance scales rotations cov3D_precomp →
     run = (w, inl covariance_contract_violation)).
Proof.
  intros Hok run. subst run.
  split; [intros Hcolour | intros Hcolour Hcov];
    unfold GaussianRasterizer_forward; pass_check Hok;
    destruct shs, colors_precomp, scales, rotations, cov3D_precomp; simpl;
    check_inputs.
Qed.

(** A run that ends in an error without a native call. *)
Lemma no_native_call (run : World * (Exn + (Ctx * (Tensor * Tensor * Tensor))))
    w w' ex :
  run = (w', inl ex) → native_trace w' = native_trace w →
  ¬ ∃ args, native_trace run.1 = native_trace w ++ [(E_rasterize_gaussians, args)].
Proof.
  intros -> Hsame [args Htrace]. simpl in Htrace. rewrite Hsame in Htrace.
  apply (f_equal length) in Htrace. rewrite length_app in Htrace. simpl in Htrace. lia.
Qed.

(** X4. After the decorator of the facade, the colour inputs are checked
    first: a call that the decorator turns away raises its [TypeError];
    otherwise, without exactly one colour input the colour violation is
    raised, whatever the covariance inputs are, and with exactly one colour
    input and a wrong covariance combination the covariance violation is
    raised. In all these cases the world is left as it was. *)
Theorem colour_is_checked_first self means3D means2D opacities
    (shs colors_precomp scales rotations cov3D_precomp camerapos camerarot :
       option Tensor) w :
  let run :=
    GaussianRasterizer_forward C_rasterize_gaussians self means3D means2D opacities
      shs colors_precomp scales rotations cov3D_precomp camerapos camerarot w in
  match
    first_violation
      (facade_annotations (store w !!! means3D) (store w !!! means2D)
         (store w !!! opacities))
  with
  | Some name => run = (w, inl (TypeError name))
  | None =>
      (¬ one_colour shs colors_precomp → run = (w, inl color_contract_violation))
      ∧ (one_colour shs colors_precomp →
         ¬ one_covariance scales rotations cov3D_precomp →
         run = (w, inl covariance_contract_violation))
  end.
Proof.
  intros run. subst run.
  destruct (first_violation _) as [name|] eqn:Hcheck.
  - apply facade_rejected. exact Hcheck.
  - apply facade_invalid. exact Hcheck.
Qed.

(** X5. [GaussianRasterizer.forward] reaches the native rasterizer exactly
    when there is one colour input and one covariance input and the
    decorator of [rasterize_gaussians] accepts the tensors it is handed, an
    omitted argument arriving as an empty tensor: then it makes one native
    call, and otherwise none. Since an empty tensor fits none of the
    annotations of [sh], [scales], [rotations], [camerapos] and [camerarot],
    the native rasterizer is reached only by calls that give these five and
    omit [colors_precomp] and [cov3D_precomp]. *)
Theorem native_is_called_iff_inputs_are_valid self means3D means2D opacities
    (shs colors_precomp scales rotations cov3D_precomp camerapos camerarot :
       option Tensor) w :
  let run :=
    GaussianRasterizer_forward C_rasterize_gaussians self means3D means2D opacities
      shs colors_precomp scales rotations cov3D_precomp camerapos camerarot w in
  let called :=
    ∃ args, native_trace run.1 = native_trace w ++ [(E_rasterize_gaussians, args)] in
  (called
   ↔ one_colour shs colors_precomp ∧ one_covariance scales rotations cov3D_precomp
     ∧ first_violation
         (delegation_annotations (store w) means3D means2D opacities shs
            colors_precomp scales rotations camerapos camerarot) = None)
  ∧ (called →
     shs ≠ None ∧ colors_precomp = None ∧ scales ≠ None ∧ rotations ≠ None
     ∧ cov3D_precomp = None ∧ camerapos ≠ None ∧ camerarot ≠ None).
Proof.
  intros run called.
  assert (Hiff :
    called
    ↔ one_colour shs colors_precomp ∧ one_covariance scales rotations cov3D_precomp
      ∧ first_violation
          (delegation_annotations (store w) means3D means2D opacities shs
             colors_precomp scales rotations camerapos camerarot) = None).
  { subst called. split.
    - intros Hcalled.
      destruct (first_violation
                  (facade_annotations (store w !!! means3D) (store w !!! means2D)
                     (store w !!! opacities))) as [name|] eqn:Hok.
      { exfalso. revert Hcalled. eapply no_native_call; [|reflexivity].
        subst run. apply facade_rejected. exact Hok. }
      destruct (facade_invalid self means3D means2D opacities shs colors_precomp
                  scales rotations cov3D_precomp camerapos camerarot w Hok)
        as [Hno_colour Hno_cov].
      destruct (one_colour_dec shs colors_precomp) as [Hcolour|Hcolour].
      2: { exfalso. revert Hcalled. eapply no_native_call; [|reflexivity].
           exact (Hno_colour Hcolour). }
      destruct (one_covariance_dec scales rotations cov3D_precomp) as [Hcov|Hcov].
      2: { exfalso. revert Hcalled. eapply no_native_call; [|reflexivity].
           exact (Hno_cov Hcolour Hcov). }
      split; [exact Hcolour|]. split; [exact Hcov|].
      destruct (facade_delegation self means3D means2D opacities shs colors_precomp
                  scales rotations cov3D_precomp camerapos camerarot w Hok Hcolour
                  Hcov)
        as (t1 & t2 & t3 & t4 & t5 & t6 & t7 & _ & Hcase).
      destruct (first_violation (delegation_annotations _ _ _ _ _ _ _ _ _ _))
        as [name|]; [|reflexivity].
      exfalso. revert Hcalled. eapply no_native_call; [exact Hcase | reflexivity].
    - intros (Hcolour & Hcov & Hcheck).
      pose proof (rasterize_accepts_facade _ _ _ _ _ _ _ _ _ Hcheck) as Hok.
      destruct (facade_delegation self means3D means2D opacities shs colors_precomp
                  scales rotations cov3D_precomp camerapos camerarot w Hok Hcolour
                  Hcov)
        as (t1 & t2 & t3 & t4 & t5 & t6 & t7 & _ & Hcase).
      rewrite Hcheck in Hcase. destruct Hcase as [Hfw Hrun].
      eexists. subst run. rewrite Hrun.
      rewrite (forward_trace C_rasterize_gaussians) by exact Hfw. reflexivity. }
  split; [exact Hiff|].
  intros Hcalled. apply Hiff in Hcalled as (Hcolour & Hcov & Hcheck).
  apply rasterize_accepts_given in Hcheck as (Hsh & Hsc & Hrot & Hpos & Hcrot).
  repeat split; try assumption.
  - destruct Hcolour as [[_ ?]|[? _]]; [assumption | contradiction].
  - destruct Hcov as [(_ & _ & ?)|(? & _ & _)]; [assumption | contradiction].
Qed.

(** X6. A call of [GaussianRasterizer.forward] that gives [shs], [scales],
    [rotations], [camerapos] and [camerarot], omits [colors_precomp] and
    [cov3D_precomp], and is accepted by the decorator of
    [rasterize_gaussians], makes one call to the native rasterizer, on the
    caller's tensor store extended by two empty tensors, with the settings
    the module was built with, the given tensors, and the two new tensors in
    the places of the colours and of the covariance; [means2D] and
    [camerarot] are not among the arguments. When that call returns, the
    facade returns its image, radii and depth, and the context holds the
    thirteen tensors for the backward pass. *)
Theorem facade_native_call self means3D means2D opacities shs scales rotations
    camerapos camerarot w :
  first_violation
    (delegation_annotations (store w) means3D means2D opacities (Some shs) None
       (Some scales) (Some rotations) (Some camerapos) (Some camerarot)) = None →
  let rs := raster_settings self in
  let colors_precomp := length (store w) in
  let cov3D_precomp := S (length (store w)) in
  let run :=
    GaussianRasterizer_forward C_rasterize_gaussians self means3D means2D opacities
      (Some shs) None (Some scales) (Some rotations) None (Some camerapos)
      (Some camerarot) w in
  let args :=
    [ VTensor (bg rs); VTensor means3D; VTensor colors_precomp;
      VTensor opacities; VTensor scales; VTensor rotations;
      VFloat (scale_modifier rs); VFloat (cov_offset rs);
      VTensor cov3D_precomp; VTensor (viewmatrix rs); VTensor (projmatrix rs);
      VFloat (tanfovx rs); VFloat (tanfovy rs); VInt (image_height rs);
      VInt (image_width rs); VTensor shs; VInt (sh_degree rs);
      VTensor camerapos; VBool (prefiltered rs); VBool (debug rs) ] in
  native_trace run.1 = native_trace w ++ [(E_rasterize_gaussians, args)]
  ∧ ∀ h num_rendered color radii geomBuffer binningBuffer imgBuffer depth,
      C_rasterize_gaussians args (store w ++ [empty_data; empty_data])
        = (h, inr (num_rendered, color, radii, geomBuffer, binningBuffer,
                   imgBuffer, depth)) →
      store run.1 = h
      ∧ run.2 = inr (saved rs num_rendered colors_precomp means3D scales rotations
                       cov3D_precomp radii shs geomBuffer binningBuffer imgBuffer
                       camerapos camerarot depth,
                     (color, radii, depth)).
Proof.
  intros Hcheck rs colors_precomp cov3D_precomp run args.
  pose proof (rasterize_accepts_facade _ _ _ _ _ _ _ _ _ Hcheck) as Hok.
  destruct (facade_delegation self means3D means2D opacities (Some shs) None
              (Some scales) (Some rotations) None (Some camerapos) (Some camerarot)
              w Hok)
    as (t1 & t2 & t3 & t4 & t5 & t6 & t7 & Hslots & Hcase).
  { left. split; [discriminate | reflexivity]. }
  { left. split; [discriminate|]. split; [discriminate | reflexivity]. }
  rewrite Hcheck in Hcase. destruct Hcase as [Hfw Hrun].
  simpl in Hslots. injection Hslots as <- <- <- <- <- <- <-.
  subst run. rewrite Hrun. split.
  - rewrite (forward_trace C_rasterize_gaussians) by exact Hfw. reflexivity.
  - intros h n color radii geom binning img depth Hnative.
    erewrite (forward_native_returns C_rasterize_gaussians);
      [|exact Hfw|exact Hnative].
    split; reflexivity.
Qed.

(** X7. The stand-ins of the omitted arguments are new and distinct: a call
    that passes the decorator of the facade and both checks hands
    [rasterize_gaussians] a store that is the caller's store followed by one
    empty tensor per omitted argument; a given argument is passed as it is,
    an omitted one as a tensor that was not in the caller's store and is
    empty, and two omitted arguments never share a tensor. *)
Theorem sentinels_are_new_and_distinct self means3D means2D opacities
    (shs colors_precomp scales rotations cov3D_precomp camerapos camerarot :
       option Tensor) w :
  facade_accepts (store w) means3D means2D opacities →
  one_colour shs colors_precomp →
  one_covariance scales rotations cov3D_precomp →
  let opts := [shs; colors_precomp; scales; rotations; cov3D_precomp; camerapos;
               camerarot] in
  ∃ t1 t2 t3 t4 t5 t6 t7 w',
    let ts := [t1; t2; t3; t4; t5; t6; t7] in
    GaussianRasterizer_forward C_rasterize_gaussians self means3D means2D opacities
        shs colors_precomp scales rotations cov3D_precomp camerapos camerarot w
      = rasterize_gaussians C_rasterize_gaussians means3D means2D t1 t2 opacities
          t3 t4 t5 t6 t7 (raster_settings self) w'
    ∧ store w' = store w ++ replicate (omitted opts) empty_data
    ∧ (∀ i x, opts !! i = Some (Some x) → ts !! i = Some x)
    ∧ (∀ i, opts !! i = Some None →
         ∃ t, ts !! i = Some t
              ∧ length (store w) ≤ t < length (store w')
              ∧ store w' !! t = Some empty_data)
    ∧ (∀ i j ti tj, i ≠ j → opts !! i = Some None → opts !! j = Some None →
         ts !! i = Some ti → ts !! j = Some tj → ti ≠ tj).
Proof.
  intros Hok Hcolour Hcov opts.
  destruct (facade_run self means3D means2D opacities shs colors_precomp scales
              rotations cov3D_precomp camerapos camerarot w Hok Hcolour Hcov)
    as (t1 & t2 & t3 & t4 & t5 & t6 & t7 & Hslots & Hrun).
  fold opts in Hslots, Hrun.
  exists t1, t2, t3, t4, t5, t6, t7, (grow (omitted opts) w).
  intros ts. subst ts. rewrite <- Hslots. clearbody opts.
  split; [exact Hrun|]. split; [reflexivity|]. split; [|split].
  - intros i x Hi. by apply slots_given.
  - intros i Hi. eexists. split; [by apply slots_omitted|].
    pose proof (omitted_take_lt_all _ _ Hi) as Hlt.
    unfold grow. cbn [store with_store].
    rewrite length_app, length_replicate. split; [lia|].
    etrans; [apply lookup_app_r; lia|].
    apply lookup_replicate_2. lia.
  - intros i j ti tj Hij Hi Hj Hti Htj.
    rewrite (slots_omitted _ _ _ Hi) in Hti. rewrite (slots_omitted _ _ _ Hj) in Htj.
    injection Hti as <-. injection Htj as <-.
    destruct (Nat.lt_total i j) as [Hlt|[Heq|Hlt]]; [|done|].
    + pose proof (omitted_take_lt _ _ _ Hlt Hi). lia.
    + pose proof (omitted_take_lt _ _ _ Hlt Hj). lia.
Qed.

End Facade.

(** ** Concrete runs of the further properties *)


(** The same tensor on the device and on the host. *)
Lemma cpu_deep_copy_tuple_device_independent_witness :
  device (store (Scene.world None) !!! 3) = CUDA
  ∧ device (store Scene.host_world !!! 3) = CPU
  ∧ (cpu_deep_copy_tuple [VTensor 3; VInt 1] (Scene.world None)).2
    = (cpu_deep_copy_tuple [VTensor 3; VInt 1] Scene.host_world).2.
Proof.
  split; [reflexivity|]. split; [reflexivity|].
  apply cpu_deep_copy_tuple_device_independent.
  intros t Ht. apply elem_of_cons in Ht as [[= ->]|Ht]; [repeat split; reflexivity|].
  apply elem_of_cons in Ht as [[=]|Ht]. by apply elem_of_nil in Ht.
Defined.

(** No colour input and a lone [scales]: the colour violation. With
    [opacities] in the place of [means3D], the decorator comes first. *)
Lemma colour_is_checked_first_witness :
  ¬ one_colour None None
  ∧ GaussianRasterizer_forward Scene.rasterizer Scene.rasterizer_module 3 4 5
        None None (Some 7) None None None None (Scene.world None)
      = (Scene.world None, inl color_contract_violation)
  ∧ GaussianRasterizer_forward Scene.rasterizer Scene.rasterizer_module 5 4 5
        None None (Some 7) None None None None (Scene.world None)
      = (Scene.world None, inl (TypeError "means3D")).
Proof.
  assert (Hcolour : ¬ one_colour None None)
    by (intros [[? ?]|[? ?]]; congruence).
  split; [exact Hcolour|]. split.
  - exact (proj1 (colour_is_checked_first Scene.rasterizer Scene.rasterizer_module 3 4 5
                    None None (Some 7) None None None None (Scene.world None))
             Hcolour).
  - exact (colour_is_checked_first Scene.rasterizer Scene.rasterizer_module 5 4 5
             None None (Some 7) None None None None (Scene.world None)).
Defined.

(** SH colours, scales, rotations and both camera tensors: one native call.
    Without the camera tensors: none. *)
Lemma native_is_called_iff_inputs_are_valid_witness :
  (∃ args,
     native_trace
       (GaussianRasterizer_forward Scene.rasterizer Scene.rasterizer_module 3 4 5
          (Some 6) None (Some 7) (Some 8) None (Some 9) (Some 10)
          (Scene.world None)).1
     = [] ++ [(E_rasterize_gaussians, args)])
  ∧ ¬ (∃ args,
         native_trace
           (GaussianRasterizer_forward Scene.rasterizer Scene.rasterizer_module 3 4 5
              (Some 6) None (Some 7) (Some 8) None None None (Scene.world None)).1
         = [] ++ [(E_rasterize_gaussians, args)]).
Proof.
  assert (Hcolour : one_colour (Some 6) None) by (left; split; [discriminate | reflexivity]).
  assert (Hcov : one_covariance (Some 7) (Some 8) None)
    by (left; split; [discriminate|]; split; [discriminate | reflexivity]).
  split.
  - exact (proj2 (proj1 (native_is_called_iff_inputs_are_valid Scene.rasterizer
                           Scene.rasterizer_module 3 4 5 (Some 6) None (Some 7)
                           (Some 8) None (Some 9) (Some 10) (Scene.world None)))
             (conj Hcolour (conj Hcov eq_refl))).
  - intros Hcalled.
    destruct (proj2 (native_is_called_iff_inputs_are_valid Scene.rasterizer
                       Scene.rasterizer_module 3 4 5 (Some 6) None (Some 7)
                       (Some 8) None None None (Scene.world None)) Hcalled)
      as (_ & _ & _ & _ & _ & Hcamerapos & _).
    exact (Hcamerapos eq_refl).
Defined.

(** The call that reaches the rasterizer: tensors 17 and 18 stand for the
    colours and the covariance, and the outputs are those of the
    rasterizer. *)
Lemma facade_native_call_witness :
  let run :=
    GaussianRasterizer_forward Scene.rasterizer Scene.rasterizer_module 3 4 5
      (Some 6) None (Some 7) (Some 8) None (Some 9) (Some 10) (Scene.world None) in
  native_trace run.1
    = [ (E_rasterize_gaussians,
         [ VTensor 0; VTensor 3; VTensor 17; VTensor 5; VTensor 7; VTensor 8;
           VFloat Scene.one; VFloat Scene.one; VTensor 18; VTensor 1; VTensor 2;
           VFloat Scene.one; VFloat Scene.one; VInt 1; VInt 1; VTensor 6; VInt 0;
           VTensor 9; VBool false; VBool false ]) ]
  ∧ run.2 = inr (saved (Scene.settings false) 1 17 3 7 8 18 20 6 21 22 23 9 10 24,
                 (19, 20, 24)).
Proof.
  destruct (facade_native_call Scene.rasterizer Scene.rasterizer_module 3 4 5
              6 7 8 9 10 (Scene.world None) eq_refl)
    as [Htrace Hreturns].
  split; [exact Htrace|].
  exact (proj2 (Hreturns _ 1%Z 19 20 21 22 23 24 eq_refl)).
Defined.

(** A call without camera tensors: the given tensors pass through, the
    stand-ins differ from each other. *)
Lemma sentinels_are_new_and_distinct_witness :
  ∃ colors_precomp' cov3D_precomp' camerapos' camerarot' w',
    GaussianRasterizer_forward Scene.rasterizer Scene.rasterizer_module 3 4 5
        (Some 6) None (Some 7) (Some 8) None None None (Scene.world None)
      = rasterize_gaussians Scene.rasterizer 3 4 6 colors_precomp' 5 7 8
          cov3D_precomp' camerapos' camerarot' (Scene.settings false) w'
    ∧ store w' = Scene.tensors ++ replicate 4 empty_data
    ∧ colors_precomp' ≠ cov3D_precomp'
    ∧ cov3D_precomp' ≠ camerapos'
    ∧ camerapos' ≠ camerarot'.
Proof.
  destruct (sentinels_are_new_and_distinct Scene.rasterizer Scene.rasterizer_module
              3 4 5 (Some 6) None (Some 7) (Some 8) None None None (Scene.world None))
    as (t1 & t2 & t3 & t4 & t5 & t6 & t7 & w' & Hrun & Hstore & Hgiven & _ & Hdistinct).
  - reflexivity.
  - left. split; [discriminate | reflexivity].
  - left. split; [discriminate|]. split; [discriminate | reflexivity].
  - pose proof (Hgiven 0 6 eq_refl) as [= ->].
    pose proof (Hgiven 2 7 eq_refl) as [= ->].
    pose proof (Hgiven 3 8 eq_refl) as [= ->].
    exists t2, t5, t6, t7, w'. split; [exact Hrun|]. split; [exact Hstore|].
    split; [exact (Hdistinct 1 4 t2 t5 ltac:(lia) eq_refl eq_refl eq_refl eq_refl)|].
    split; [exact (Hdistinct 4 5 t5 t6 ltac:(lia) eq_refl eq_refl eq_refl eq_refl)|].
    exact (Hdistinct 5 6 t6 t7 ltac:(lia) eq_refl eq_refl eq_refl eq_refl).
Defined.

(** A forward pass in debug mode that succeeds. *)
Lemma success_leaves_no_snapshot_witness :
  debug (Scene.settings true) = true
  ∧ files (Scene.render true None).1 = ∅
  ∧ stdout (Scene.render true None).1 = [].
Proof.
  split; [reflexivity|].
  exact (proj2 (proj1 (success_leaves_no_snapshot Scene.rasterizer
                         Scene.differentiator)
                  new_ctx 3 4 6 15 5 7 8 16 9 10 (Scene.settings true)
                  (Scene.world None) _ _ eq_refl eq_refl)).
Defined.

(** A forward pass in debug mode that fails in a directory with older
    snapshots. *)
Lemma failure_touches_only_its_snapshot_witness :
  let args := forward_args 3 6 15 5 7 8 16 9 (Scene.settings true) in
  let run :=
    forward Scene.corrupt_then_fail new_ctx 3 4 6 15 5 7 8 16 9 10
      (Scene.settings true) Scene.world_with_old_snapshots in
  files Scene.world_with_old_snapshots !! snapshot_fw = Some [Same VNone]
  ∧ files run.1 !! snapshot_fw = Some (copy_item Scene.tensors <$> args)
  ∧ files run.1 !! snapshot_bw = Some [Same (VInt 7)].
Proof.
  split; [vm_compute; reflexivity|].
  destruct (proj1 (failure_touches_only_its_snapshot Scene.corrupt_then_fail
                     Scene.corrupt_then_fail)
              new_ctx 3 4 6 15 5 7 8 16 9 10 (Scene.settings true)
              Scene.world_with_old_snapshots _ Scene.cuda_error _
              eq_refl eq_refl eq_refl eq_refl eq_refl)
    as (Hfw & Hbw & _).
  split; [exact Hfw|].
  etrans; [exact Hbw|]. vm_compute. reflexivity.
Defined.

